(** * NewsAggregator: the Flask application [app.py]

    A shallow embedding of the application's request handlers and of the
    helpers they call, followed by the properties of them that the
    specification states.

    - Python [str] values are Rocq strings (the UTF-8 bytes of the text; the
      substring test, concatenation, equality and emptiness of two texts agree
      with those of their UTF-8 encodings).
    - [str.lower] and [str.strip] are the runtime's; the handlers are
      parametric in them (the Section variables [lower] and [strip]).
      [PyStr.ascii_lower] and [PyStr.ascii_strip] are their restrictions to
      ASCII text, used to run the handlers on concrete requests.
    - Python [int] values are [Z].
    - An exception is a [Raise] carrying the exception's message; [try] /
      [except Exception] is [try_except].
    - The handler of [get_bbc_news] reports the exception on standard output
      before the fallback is built, and the write can itself raise (a console
      that cannot encode the warning sign). [get_bbc_news] is the list the
      function returns; [Console.get_bbc_news] is the function with the
      report, over the console it writes to, and returns that list whenever
      it returns.
    - Everything outside the process (the HTTP client, the HTML parser, the
      clock, the generative model) is an argument of the handler that uses it. *)

From Stdlib Require Import ZArith Lia Ascii String List Bool.
From Stdlib Require Import Sorted.
From stdpp Require Import base option list strings gmap.

Local Open Scope string_scope.
Local Open Scope Z_scope.

(** ** Python strings *)

Module PyStr.

(** [bool(s)]: a string is true when it is not empty. *)
Definition truthy (s : string) : bool :=
  match s with
  | EmptyString => false
  | String _ _ => true
  end.

(** [s.startswith(p)] *)
Fixpoint startswith (s p : string) {struct p} : bool :=
  match p with
  | EmptyString => true
  | String a p' =>
      match s with
      | EmptyString => false
      | String b s' => if Ascii.eqb a b then startswith s' p' else false
      end
  end.

(** [k in t]: [k] occurs in [t] at some position. *)
Fixpoint str_in (k t : string) {struct t} : bool :=
  startswith t k ||
  match t with
  | EmptyString => false
  | String _ t' => str_in k t'
  end.

(** What [k in t] means: [t] is some text, then [k], then some text. *)
Definition occurs_in (k t : string) : Prop :=
  exists pre post : string, t = pre +:+ k +:+ post.

(** [str.lower] on ASCII text: the letters A-Z move to a-z. *)
Definition ascii_lower_char (c : ascii) : ascii :=
  let n := nat_of_ascii c in
  if (Nat.leb 65 n && Nat.leb n 90)%bool then ascii_of_nat (n + 32) else c.

Fixpoint ascii_lower (s : string) : string :=
  match s with
  | EmptyString => EmptyString
  | String c s' => String (ascii_lower_char c) (ascii_lower s')
  end.

(** The ASCII characters [str.strip] removes: tab, line feed, vertical tab,
    form feed, carriage return, the separators 28-31 and the space. *)
Definition ascii_isspace (c : ascii) : bool :=
  let n := nat_of_ascii c in
  ((Nat.leb 9 n && Nat.leb n 13) || (Nat.leb 28 n && Nat.leb n 32))%bool.

Fixpoint lstrip (s : string) : string :=
  match s with
  | EmptyString => EmptyString
  | String c s' => if ascii_isspace c then lstrip s' else s
  end.

Fixpoint rstrip (s : string) : string :=
  match s with
  | EmptyString => EmptyString
  | String c s' =>
      match rstrip s' with
      | EmptyString => if ascii_isspace c then EmptyString else String c EmptyString
      | r => String c r
      end
  end.

Definition ascii_strip (s : string) : string := rstrip (lstrip s).

End PyStr.

(** ** Exceptions *)

Inductive result (A : Type) : Type :=
  | Ok (a : A)
  | Raise (e : string).
Arguments Ok {A} a.
Arguments Raise {A} e.

#[global] Instance result_ret : MRet result := fun A a => Ok a.
#[global] Instance result_bind : MBind result := fun A B f m =>
  match m with
  | Ok a => f a
  | Raise e => Raise e
  end.

(** [try: body / except Exception as e: handler e] *)
Definition try_except {A : Type} (body : result A) (handler : string -> A) : A :=
  match body with
  | Ok a => a
  | Raise e => handler e
  end.

(** [l[i]] on a Python list: a negative index counts from the end, an index
    out of range raises IndexError. *)
Definition getitem {A : Type} (l : list A) (i : Z) : result A :=
  let j := if i <? 0 then i + Z.of_nat (length l) else i in
  if j <? 0 then Raise "list index out of range"
  else match l !! Z.to_nat j with
       | Some x => Ok x
       | None => Raise "list index out of range"
       end.

(** [l[:m]] on a Python list: a negative bound counts from the end. *)
Definition slice_to {A : Type} (m : Z) (l : list A) : list A :=
  if m <? 0 then firstn (Z.to_nat (Z.of_nat (length l) + m)) l
  else firstn (Z.to_nat m) l.

(** ** The category table *)

Definition CATEGORY_KEYWORDS : list (string * list string) :=
  [ ("World", ["world"; "global"; "ukraine"; "india"; "china"; "europe"; "middle east"; "africa"; "america"]);
    ("Business", ["business"; "market"; "stocks"; "economy"; "inflation"; "trade"; "bank"; "startup"]);
    ("Technology", ["tech"; "technology"; "ai"; "artificial intelligence"; "software"; "app"; "iphone"; "android"; "robot"; "chip"]);
    ("Sports", ["sport"; "sports"; "football"; "cricket"; "tennis"; "match"; "tournament"; "olympic"; "goal"; "ipl"]);
    ("Entertainment", ["film"; "movie"; "bollywood"; "hollywood"; "tv"; "series"; "music"; "celebrity"; "show"]);
    ("Science", ["science"; "space"; "nasa"; "research"; "study"; "astronomy"]);
    ("Health", ["health"; "covid"; "vaccine"; "hospital"; "disease"; "mental"]);
    ("Environment", ["climate"; "environment"; "weather"; "heat"; "flood"; "wildfire"; "energy"]);
    ("Education", ["education"; "university"; "school"; "students"; "exam"]);
    ("Politics", ["election"; "politics"; "government"; "parliament"; "minister"; "policy"]);
    ("Spiritual", ["spiritual"; "meditation"; "prayer"; "mindfulness"; "inner peace"; "faith"; "religion"]);
    ("Cyber Security", ["cyber"; "security"; "hacking"; "data breach"; "malware"; "phishing"; "ransomware"]);
    ("Animals", ["animals"; "wildlife"; "pets"; "nature"; "zoo"; "endangered"; "species"]) ].

(** [list(CATEGORY_KEYWORDS.keys())]: the labels, in declaration order. *)
Definition category_labels : list string := map fst CATEGORY_KEYWORDS.

Definition ALL_CATEGORIES : list string := "All" :: category_labels.

(** The loop of [guess_category] over [CATEGORY_KEYWORDS.items()]: the first
    entry with [any(k in t for k in keys)] returns its label; the statement
    after the loop returns "World". *)
Fixpoint guess_loop (items : list (string * list string)) (t : string) : string :=
  match items with
  | [] => "World"
  | (cat, keys) :: rest =>
      if existsb (fun k => PyStr.str_in k t) keys then cat else guess_loop rest t
  end.

(** A category matches a text when one of its keywords occurs in it. *)
Definition matches (keys : list string) (t : string) : Prop :=
  exists k, In k keys /\ PyStr.occurs_in k t.

(** [A] is listed before [B] in a table. *)
Definition listed_before {K V : Type} (table : list (K * V)) (a : K * V) (b : K * V) : Prop :=
  exists pre mid post : list (K * V), table = (pre ++ a :: mid ++ b :: post)%list.

(** ** The data model *)

(** A news item: the dict with the keys id, title, url, content, category. *)
Record NewsItem : Type := mkNewsItem {
  id : Z;
  title : string;
  url : string;
  content : string;
  category : string
}.

(** [n["id"] = i] *)
Definition set_id (i : Z) (n : NewsItem) : NewsItem :=
  {| id := i; title := title n; url := url n; content := content n; category := category n |}.

(** What an item says, its id apart. *)
Definition story (n : NewsItem) : string * string * string * string :=
  (title n, url n, content n, category n).

(** An [h3] element the selector returned: the text [get_text(strip=True)]
    gives for it, and the [href] of the anchor [find_parent("a")] gives
    ([None]: no enclosing anchor; [Some None]: an anchor without href). *)
Record Tag : Type := mkTag {
  get_text : string;
  find_parent_a : option (option string)
}.

(** The response of [requests.get]: its status code, and what
    [BeautifulSoup(resp.text, "html.parser").select(...)] gives for its body
    (the selected elements, or the exception the parser raised). *)
Record Response : Type := mkResponse {
  status_code : Z;
  select_h3 : result (list Tag)
}.

(** [resp.raise_for_status()]: HTTPError for a 4xx or 5xx status. *)
Definition raise_for_status (resp : Response) : result unit :=
  if (400 <=? status_code resp) && (status_code resp <? 600)
  then Raise "HTTPError"
  else Ok tt.

(** The link of a scraped item, from the [href] of its anchor. *)
Definition make_link (parent_a : option (option string)) : string :=
  let href := match parent_a with
              | Some a => a
              | None => None
              end in
  match href with
  | Some h =>
      if PyStr.truthy h && PyStr.startswith h "/" then "https://www.bbc.com" +:+ h
      else if PyStr.truthy h then h
      else "https://www.bbc.com/news"
  | None => "https://www.bbc.com/news"
  end.

(** The summary line both paths synthesize. *)
Definition summary (title : string) : string :=
  "This is a short summary for: " +:+ title +:+ ".".

(** The literal fallback table: (title, category, url). *)
Definition fallback : list (string * string * string) :=
  [ ("AI is Transforming the World", "Technology", "https://www.bbc.com/news/technology");
    ("Markets Rally as Inflation Cools", "Business", "https://www.bbc.com/news/business");
    ("Global Leaders Meet for Summit", "World", "https://www.bbc.com/news/world");
    ("Major Finals Set to Thrill Fans", "Sports", "https://www.bbc.com/sport");
    ("discovering the beatiful adventures", "travel", "https://www.bbc.com/travel");
    ("Exploring the Depths of the Ocean", "Environment", "https://www.bbc.com/news/science-environment");
    ("Green Energy Adoption Surges", "Environment", "https://www.bbc.com/future/columns/climate-change");
    ("Universities Roll Out New Programs", "Education", "https://www.bbc.com/news/education");
    ("Elections Around the Corner", "Politics", "https://www.bbc.com/news/politics");
    ("New Species Discovered in Amazon", "Science", "https://www.bbc.com/news/science-environment");
    ("Mental Health Awareness Rises", "Health", "https://www.bbc.com/news/health");
    ("Blockbuster Movie Breaks Records", "Entertainment", "https://www.bbc.com/news/entertainment_and_arts");
    ("Cyber Security Threats on the Rise", "Cyber Security", "https://www.bbc.com/news/technology");
    ("The Rise of Electric Vehicles", "Technology", "https://www.bbc.com/news/technology");
    ("AI-Powered Healthcare Innovations", "Health", "https://www.bbc.com/news/health");
    ("Amazing Wildlife Discoveries", "Animals", "https://www.bbc.com/news/science-environment") ].

(** [for i, (title, cat, url) in enumerate(fallback, start=i): news_list.append(...)] *)
Fixpoint fallback_loop (i : Z) (fb : list (string * string * string))
    (news_list : list NewsItem) : list NewsItem :=
  match fb with
  | [] => news_list
  | (title, cat, url) :: rest =>
      fallback_loop (i + 1) rest
        (news_list ++ [ {| id := i; title := title; url := url;
                           content := summary title; category := cat |} ])%list
  end.

(** [for i, n in enumerate(news_list, start=i): n["id"] = i] *)
Fixpoint reassign_ids (i : Z) (news_list : list NewsItem) : list NewsItem :=
  match news_list with
  | [] => []
  | n :: rest => set_id i n :: reassign_ids (i + 1) rest
  end.

(** The ids 1, 2, ..., k. *)
Definition ids_from_one (k : nat) : list Z := map Z.of_nat (seq 1 k).

(** ** The question-answering endpoint's data *)

(** A value of the request's JSON body, as far as [ask] looks at it: null, a
    string, or any other value, known by its truth value and by the text
    [str] gives for it. *)
Inductive value : Type :=
  | VNone
  | VStr (s : string)
  | VOther (truth : bool) (text : string).

(** The parsed body: a dict, or any other JSON value. *)
Inductive json : Type :=
  | JDict (d : gmap string value)
  | JNotDict.

(** [bool(v)] *)
Definition value_truthy (v : value) : bool :=
  match v with
  | VNone => false
  | VStr s => PyStr.truthy s
  | VOther truth _ => truth
  end.

(** [f"{v}"] *)
Definition format (v : value) : string :=
  match v with
  | VNone => "None"
  | VStr s => s
  | VOther _ text => text
  end.

(** The object [model.generate_content] returns: its [text] attribute the way
    [getattr(response, 'text', None)] reads it (an exception of the property,
    or the attribute, [None] when absent), and [str(response)]. *)
Record GenResponse : Type := mkGenResponse {
  gen_text : result (option string);
  gen_str : string
}.

Record GenerativeModel : Type := mkModel {
  generate_content : value -> result GenResponse
}.

(** The two globals the import of the client library sets. *)
Record Genai : Type := mkGenai {
  genai_available : bool;
  model : option GenerativeModel
}.

(** The reply of [ask]: the JSON body's [answer] and the HTTP status. *)
Record Reply : Type := mkReply {
  answer : string;
  status : Z
}.

(** The variables [index] hands to the template. *)
Record Listing : Type := mkListing {
  news_list : list NewsItem;
  last_updated : string;
  query : string;
  listing_category : string;
  categories : list string
}.

(** An item passes the filters of the listing for the category [c] and the
    normalized search text [q]: in the specification's words. *)
Definition kept (lower : string -> string) (c q : string) (n : NewsItem) : Prop :=
  (c = "" \/ c = "All" \/ category n = c) /\
  (q = "" \/ PyStr.occurs_in q (lower (title n)) \/ PyStr.occurs_in q (lower (content n))).

Section App.

Variable lower : string -> string.
Variable strip : string -> string.

(** *** [guess_category] *)

Definition guess_category (title : string) : string :=
  let t := lower title in
  guess_loop CATEGORY_KEYWORDS t.

(** *** [get_bbc_news] *)

(** The [for idx, tag in enumerate(items, start=idx)] loop of the scraper:
    an element with an empty title is skipped by [continue]. *)
Fixpoint scrape_loop (idx : Z) (items : list Tag) (news_list : list NewsItem)
    : list NewsItem :=
  match items with
  | [] => news_list
  | tag :: rest =>
      let title := get_text tag in
      if negb (PyStr.truthy title) then scrape_loop (idx + 1) rest news_list
      else
        let link := make_link (find_parent_a tag) in
        scrape_loop (idx + 1) rest
          (news_list ++ [ {| id := idx; title := title; url := link;
                             content := summary title;
                             category := guess_category title |} ])%list
  end.

(** The body of the [try]: the request, the status check, the parse and the
    selection, then the loop. None of the loop's calls raises, so the body
    either raises before the first append or completes the list. *)
Definition try_scrape (max_items : Z) (requests_get : result Response)
    : result (list NewsItem) :=
  resp ← requests_get;
  _ ← raise_for_status resp;
  selected ← select_h3 resp;
  let items := slice_to max_items selected in
  mret (scrape_loop 1 items []).

(** The list [get_bbc_news] returns: the scraped list, or the fallback list
    when the [try] raised or left [news_list] empty. The report the handler
    prints is in [Console.get_bbc_news]. *)
Definition get_bbc_news (max_items : Z) (requests_get : result Response)
    : list NewsItem :=
  let news_list := try_except (try_scrape max_items requests_get) (fun e => []) in
  match news_list with
  | [] => fallback_loop 1 fallback news_list
  | _ :: _ => news_list
  end.

(** *** [index] *)

(** [request.args.get("q", "").strip().lower()] *)
Definition request_query (args : gmap string string) : string :=
  lower (strip (default "" (args !! "q"))).

(** [request.args.get("category", "All")] *)
Definition request_category (args : gmap string string) : string :=
  default "All" (args !! "category").

Definition index (args : gmap string string) (now : string)
    (requests_get : result Response) : Listing :=
  let query := request_query args in
  let category_arg := request_category args in
  let news_list := get_bbc_news 30 requests_get in
  let news_list :=
    if PyStr.truthy category_arg && negb (String.eqb category_arg "All")
    then List.filter (fun n => String.eqb (category n) category_arg) news_list
    else news_list in
  let news_list :=
    if PyStr.truthy query
    then List.filter (fun n => PyStr.str_in query (lower (title n))
                               || PyStr.str_in query (lower (content n))) news_list
    else news_list in
  let news_list := reassign_ids 1 news_list in
  {| news_list := news_list; last_updated := now; query := query;
     listing_category := category_arg; categories := ALL_CATEGORIES |}.

(** *** [detail] *)

(** The item the detail page shows for [news_id] of the list [news_list]. *)
Definition detail_lookup (news_id : Z) (news_list : list NewsItem) : result NewsItem :=
  if (1 <=? news_id) && (news_id <=? Z.of_nat (length news_list))
  then getitem news_list (news_id - 1)
  else getitem news_list 0.

Definition detail (news_id : Z) (requests_get : result Response) : result NewsItem :=
  let news_list := get_bbc_news 30 requests_get in
  detail_lookup news_id news_list.

End App.

(** The test the two filters of [index] make together on one item. *)
Definition keeps (lower : string -> string) (c q : string) (n : NewsItem) : bool :=
  (negb (PyStr.truthy c && negb (String.eqb c "All")) || String.eqb (category n) c)
  && (negb (PyStr.truthy q)
      || (PyStr.str_in q (lower (title n)) || PyStr.str_in q (lower (content n)))).

(** The list the fallback path builds. *)
Definition fallback_items : list NewsItem := fallback_loop 1 fallback [].

(** The live fetch fails: the request raises, the status is one
    [raise_for_status] rejects, or the parse raises. *)
Inductive live_fetch_fails : result Response -> Prop :=
  | request_raises (e : string) : live_fetch_fails (Raise e)
  | status_rejected (resp : Response) :
      400 <= status_code resp < 600 -> live_fetch_fails (Ok resp)
  | parse_raises (resp : Response) (e : string) :
      select_h3 resp = Raise e -> live_fetch_fails (Ok resp).

(** Extraction yields no surviving item: every selected element within the
    first [max_items] has an empty title. *)
Definition no_survivors (max_items : Z) (requests_get : result Response) : Prop :=
  exists resp selected,
    requests_get = Ok resp /\
    select_h3 resp = Ok selected /\
    Forall (fun tag => get_text tag = "") (slice_to max_items selected).

(** The positions (counted from [idx]) of the elements the scraper keeps. *)
Fixpoint kept_positions (idx : Z) (items : list Tag) : list Z :=
  match items with
  | [] => []
  | tag :: rest =>
      if PyStr.truthy (get_text tag) then idx :: kept_positions (idx + 1) rest
      else kept_positions (idx + 1) rest
  end.

(** *** [ask] *)

(** [data.get('question') if isinstance(data, dict) else None] *)
Definition question_of (data : json) : value :=
  match data with
  | JDict d => default VNone (d !! "question")
  | JNotDict => VNone
  end.

(** [getattr(response, 'text', None) or str(response)] *)
Definition answer_of (response : GenResponse) : result string :=
  text ← gen_text response;
  match text with
  | Some t => if PyStr.truthy t then mret t else mret (gen_str response)
  | None => mret (gen_str response)
  end.

(** The handler, given the two globals and what [request.get_json(force=True)]
    gives. Beside the reply it returns the prompts it passed to
    [model.generate_content], in call order. *)
Definition ask (cfg : Genai) (get_json : result json) : Reply * list value :=
  match get_json with
  | Raise e => ({| answer := "⚠️ Server error: " +:+ e; status := 500 |}, [])
  | Ok data =>
      let question := question_of data in
      if negb (value_truthy question)
      then ({| answer := "⚠️ No question provided."; status := 400 |}, [])
      else
        match genai_available cfg, model cfg with
        | true, Some m =>
            let answer :=
              try_except (response ← generate_content m question; answer_of response)
                         (fun e => "⚠️ Gemini error: " +:+ e) in
            ({| answer := answer; status := 200 |}, [question])
        | _, _ =>
            ({| answer := "(local) You asked: " +:+ format question; status := 200 |}, [])
        end
  end.

(** The module-level setup of the generative client: importing the library,
    configuring the key and building the model either all succeed, or the
    [except] branch clears both globals. *)
Definition configure_genai (setup : result GenerativeModel) : Genai :=
  match setup with
  | Ok m => {| genai_available := true; model := Some m |}
  | Raise _ => {| genai_available := false; model := None |}
  end.

(** ** The console *)

Module Console.

(** The writes [print] makes for its arguments: each argument, with a space
    between two of them. *)
Fixpoint write_args (stdout : string -> result unit) (args : list string)
    : result unit :=
  match args with
  | [] => Ok tt
  | [a] => stdout a
  | a :: rest => _ ← stdout a; _ ← stdout " "; write_args stdout rest
  end.

(** [print]: the arguments, then the line end. An exception of a write
    leaves [print]. *)
Definition print (stdout : string -> result unit) (args : list string)
    : result unit :=
  _ ← write_args stdout args;
  stdout (String (ascii_of_nat 10) EmptyString).

(** A standard output that encodes every text (UTF-8). *)
Definition utf8_stdout (text : string) : result unit := Ok tt.

(** A standard output with the ASCII encoding: a text with a character
    outside ASCII (a byte from 128 on in its UTF-8 form) raises
    UnicodeEncodeError. *)
Fixpoint ascii_stdout (text : string) : result unit :=
  match text with
  | EmptyString => Ok tt
  | String c rest =>
      if Nat.leb 128 (nat_of_ascii c)
      then Raise "UnicodeEncodeError: 'ascii' codec can't encode characters"
      else ascii_stdout rest
  end.

(** [get_bbc_news] with the report of its handler: [stdout] is the write of
    standard output. The exception of the [try] is caught and printed; an
    exception of the [print] leaves the function. *)
Definition get_bbc_news (lower : string -> string) (stdout : string -> result unit)
    (max_items : Z) (requests_get : result Response) : result (list NewsItem) :=
  news_list ← match try_scrape lower max_items requests_get with
              | Ok news_list => Ok news_list
              | Raise e => _ ← print stdout ["⚠️ Error fetching BBC:"; e]; Ok []
              end;
  mret (match news_list with
        | [] => fallback_loop 1 fallback news_list
        | _ :: _ => news_list
        end).

End Console.

(** * Properties *)

(** ** Strings *)

Module PyStrFacts.
Import PyStr.

Lemma append_nil (b : string) : "" +:+ b = b.
Proof. reflexivity. Qed.

Lemma append_String (c : ascii) (a b : string) :
  String c a +:+ b = String c (a +:+ b).
Proof. reflexivity. Qed.

Lemma startswith_spec (p s : string) :
  startswith s p = true <-> exists r, s = p +:+ r.
Proof.
  revert s. induction p as [|a p IH]; intros s; simpl.
  - split; [intros _; exists s; reflexivity | reflexivity].
  - destruct s as [|b s].
    + split; [discriminate | intros [r Hr]; discriminate].
    + destruct (Ascii.eqb_spec a b) as [->|Hne].
      * rewrite IH. split; intros [r Hr]; exists r;
          rewrite append_String in *; congruence.
      * split; [discriminate|].
        intros [r Hr]. rewrite append_String in Hr. congruence.
Qed.

Lemma append_empty (a b : string) : "" = a +:+ b -> a = "" /\ b = "".
Proof. destruct a; [auto | discriminate]. Qed.

Lemma str_in_spec (k t : string) : str_in k t = true <-> occurs_in k t.
Proof.
  unfold occurs_in. induction t as [|c t IH]; simpl.
  - rewrite orb_false_r, startswith_spec. split.
    + intros [r Hr]. exists "", r. exact Hr.
    + intros (pre & post & H). apply append_empty in H as [-> H].
      exists post. symmetry. exact H.
  - rewrite orb_true_iff, startswith_spec, IH. split.
    + intros [[r Hr] | (pre & post & H)].
      * exists "", r. exact Hr.
      * exists (String c pre), post. rewrite append_String. congruence.
    + intros (pre & post & H). destruct pre as [|c' pre].
      * left. exists post. exact H.
      * right. exists pre, post. rewrite append_String in H. congruence.
Qed.

Lemma str_in_false (k t : string) : str_in k t = false <-> ~ occurs_in k t.
Proof.
  rewrite <- str_in_spec. destruct (str_in k t); split; intros H; congruence.
Qed.

End PyStrFacts.

(** ** The classifier *)

Lemma existsb_matches (keys : list string) (t : string) :
  existsb (fun k => PyStr.str_in k t) keys = true <-> matches keys t.
Proof.
  unfold matches. rewrite existsb_exists.
  split; intros (k & Hk & H); exists k; split; auto;
    apply PyStrFacts.str_in_spec; exact H.
Qed.

Lemma existsb_no_match (keys : list string) (t : string) :
  existsb (fun k => PyStr.str_in k t) keys = false <-> ~ matches keys t.
Proof.
  rewrite <- existsb_matches.
  destruct (existsb _ keys); split; intros H; congruence.
Qed.

(** The loop returns the label of the first entry that matches. *)
Lemma guess_loop_first (pre post : list (string * list string))
    (cat : string) (keys : list string) (t : string) :
  (forall c kc, In (c, kc) pre -> ~ matches kc t) ->
  matches keys t ->
  guess_loop (pre ++ (cat, keys) :: post)%list t = cat.
Proof.
  intros Hpre Hm. induction pre as [|[c kc] pre IH]; simpl.
  - apply existsb_matches in Hm. rewrite Hm. reflexivity.
  - assert (Hc : existsb (fun k => PyStr.str_in k t) kc = false).
    { apply existsb_no_match. apply (Hpre c). left. reflexivity. }
    rewrite Hc. apply IH. intros c' kc' Hin. apply (Hpre c'). right. exact Hin.
Qed.

(** With no matching entry the loop falls through to the default. *)
Lemma guess_loop_none (items : list (string * list string)) (t : string) :
  (forall c kc, In (c, kc) items -> ~ matches kc t) ->
  guess_loop items t = "World".
Proof.
  induction items as [|[c kc] items IH]; intros H; simpl; [reflexivity|].
  assert (Hc : existsb (fun k => PyStr.str_in k t) kc = false).
  { apply existsb_no_match. apply (H c). left. reflexivity. }
  rewrite Hc. apply IH. intros c' kc' Hin. apply (H c'). right. exact Hin.
Qed.

(** Every text has a first matching entry, or none at all. *)
Lemma first_match_or_none (items : list (string * list string)) (t : string) :
  (exists pre cat keys post,
      items = (pre ++ (cat, keys) :: post)%list /\
      (forall c kc, In (c, kc) pre -> ~ matches kc t) /\
      matches keys t) \/
  (forall c kc, In (c, kc) items -> ~ matches kc t).
Proof.
  induction items as [|[c kc] items IH].
  - right. intros c kc [].
  - destruct (existsb (fun k => PyStr.str_in k t) kc) eqn:E.
    + left. exists [], c, kc, items. split; [reflexivity|].
      split; [intros ? ? [] | apply existsb_matches; exact E].
    + apply existsb_no_match in E.
      destruct IH as [(pre & cat & keys & post & -> & Hpre & Hm) | Hnone].
      * left. exists ((c, kc) :: pre), cat, keys, post.
        split; [reflexivity|]. split; [|exact Hm].
        intros c' kc' [Heq | Hin]; [congruence | eauto].
      * right. intros c' kc' [Heq | Hin]; [congruence | eauto].
Qed.

(** The loop returns the default or the label of an entry of its table. *)
Lemma guess_loop_label (items : list (string * list string)) (t : string) :
  guess_loop items t = "World" \/ In (guess_loop items t) (map fst items).
Proof.
  induction items as [|[c kc] items IH]; simpl; [left; reflexivity|].
  destruct (existsb _ kc); [right; left; reflexivity|].
  destruct IH as [H | H]; [left | right; right]; exact H.
Qed.

(** When an entry matches, the loop returns its label or an earlier one. *)
Lemma guess_loop_not_later (pre post : list (string * list string))
    (a : string) (ka : list string) (t : string) :
  matches ka t ->
  In (guess_loop (pre ++ (a, ka) :: post)%list t) (map fst pre ++ [a])%list.
Proof.
  intros Hm. induction pre as [|[c kc] pre IH]; simpl.
  - apply existsb_matches in Hm. rewrite Hm. left. reflexivity.
  - destruct (existsb _ kc); [left; reflexivity | right; exact IH].
Qed.

Lemma category_labels_NoDup : List.NoDup category_labels.
Proof.
  unfold category_labels. simpl.
  repeat (constructor; [simpl; intuition discriminate|]).
  constructor.
Qed.

Lemma World_is_a_label : In "World" category_labels.
Proof. left. reflexivity. Qed.

Lemma guess_category_label (lower : string -> string) (title : string) :
  In (guess_category lower title) category_labels.
Proof.
  unfold guess_category.
  destruct (guess_loop_label CATEGORY_KEYWORDS (lower title)) as [-> | H].
  - exact World_is_a_label.
  - exact H.
Qed.

Lemma NoDup_app_disjoint {A : Type} (l1 l2 : list A) (x : A) :
  List.NoDup (l1 ++ l2)%list -> In x l1 -> In x l2 -> False.
Proof.
  induction l1 as [|y l1 IH]; simpl; intros Hnd H1 H2; [exact H1|].
  inversion Hnd as [|? ? Hnotin Hnd']; subst.
  destruct H1 as [-> | H1].
  - apply Hnotin. apply in_or_app. right. exact H2.
  - exact (IH Hnd' H1 H2).
Qed.

(** C1 (as amended). For every input string, [guess_category] lower-cases
    it and walks the category table in declaration order: either some entry
    is the first whose keyword occurs in the lower-cased text, and its label
    is returned, or no entry matches and "World" is returned (so the function
    is total). When the text holds a keyword of an entry A and a keyword of
    an entry B listed after A, the result is never B, and it is A whenever no
    entry listed before A matches. *)
Theorem guess_category_first_match (lower : string -> string) (title : string) :
  ((exists pre cat keys post,
       CATEGORY_KEYWORDS = (pre ++ (cat, keys) :: post)%list /\
       (forall c kc, In (c, kc) pre -> ~ matches kc (lower title)) /\
       matches keys (lower title) /\
       guess_category lower title = cat)
   \/
   ((forall c kc, In (c, kc) CATEGORY_KEYWORDS -> ~ matches kc (lower title)) /\
    guess_category lower title = "World"))
  /\
  (forall pre a ka mid b kb post,
      CATEGORY_KEYWORDS = (pre ++ (a, ka) :: mid ++ (b, kb) :: post)%list ->
      matches ka (lower title) ->
      matches kb (lower title) ->
      guess_category lower title <> b /\
      ((forall c kc, In (c, kc) pre -> ~ matches kc (lower title)) ->
       guess_category lower title = a)).
Proof.
  unfold guess_category. split.
  - destruct (first_match_or_none CATEGORY_KEYWORDS (lower title))
      as [(pre & cat & keys & post & E & Hpre & Hm) | Hnone].
    + left. exists pre, cat, keys, post. repeat split; auto.
      rewrite E. apply guess_loop_first; assumption.
    + right. split; [exact Hnone | apply guess_loop_none; exact Hnone].
  - intros pre a ka mid b kb post E Ha Hb. split.
    + intros Heq.
      pose proof (guess_loop_not_later pre (mid ++ (b, kb) :: post)%list a ka
                    (lower title) Ha) as Hin.
      rewrite <- E, Heq in Hin.
      pose proof category_labels_NoDup as Hnd.
      unfold category_labels in Hnd. rewrite E in Hnd.
      rewrite map_app in Hnd. simpl in Hnd.
      change (map fst pre ++ a :: map fst (mid ++ (b, kb) :: post))%list
        with (map fst pre ++ [a] ++ map fst (mid ++ (b, kb) :: post))%list in Hnd.
      rewrite app_assoc in Hnd.
      apply (NoDup_app_disjoint _ _ b Hnd Hin).
      rewrite map_app. apply in_or_app. right. left. reflexivity.
    + intros Hpre. rewrite E. apply guess_loop_first; assumption.
Qed.

(** The keyword [k] of the entry [keys] occurs in [t], by running the test. *)
Lemma matches_by_test (keys : list string) (t : string) :
  existsb (fun k => PyStr.str_in k t) keys = true -> matches keys t.
Proof. apply existsb_matches. Defined.

Lemma guess_category_first_match_witness :
  guess_category PyStr.ascii_lower "Markets rally on TECH shares" <> "Technology" /\
  guess_category PyStr.ascii_lower "Markets rally on TECH shares" = "Business".
Proof.
  pose proof (proj2 (guess_category_first_match PyStr.ascii_lower
                       "Markets rally on TECH shares")) as H.
  specialize (H (firstn 1 CATEGORY_KEYWORDS) "Business"
                ["business"; "market"; "stocks"; "economy"; "inflation"; "trade"; "bank"; "startup"]
                []
                "Technology"
                ["tech"; "technology"; "ai"; "artificial intelligence"; "software"; "app"; "iphone"; "android"; "robot"; "chip"]
                (skipn 3 CATEGORY_KEYWORDS) eq_refl).
  destruct H as [Hne Heq].
  - apply matches_by_test. reflexivity.
  - apply matches_by_test. reflexivity.
  - split; [exact Hne|]. apply Heq.
    intros c kc Hin. apply existsb_no_match.
    destruct Hin as [Hin | []]. inversion Hin. reflexivity.
Defined.

(** C1 as stated fails at the headline "Global market tech": it holds the
    keyword "market" of Business and the keyword "tech" of Technology, which
    is listed after Business, and it is classified as World, not Business. *)
Lemma tie_break_as_stated_fails :
  listed_before CATEGORY_KEYWORDS
    ("Business", ["business"; "market"; "stocks"; "economy"; "inflation"; "trade"; "bank"; "startup"])
    ("Technology", ["tech"; "technology"; "ai"; "artificial intelligence"; "software"; "app"; "iphone"; "android"; "robot"; "chip"]) /\
  matches ["business"; "market"; "stocks"; "economy"; "inflation"; "trade"; "bank"; "startup"]
          (PyStr.ascii_lower "Global market tech") /\
  matches ["tech"; "technology"; "ai"; "artificial intelligence"; "software"; "app"; "iphone"; "android"; "robot"; "chip"]
          (PyStr.ascii_lower "Global market tech") /\
  guess_category PyStr.ascii_lower "Global market tech" = "World" /\
  guess_category PyStr.ascii_lower "Global market tech" <> "Business".
Proof.
  split; [|split; [|split; [|split]]].
  - exists (firstn 1 CATEGORY_KEYWORDS), [], (skipn 3 CATEGORY_KEYWORDS). reflexivity.
  - apply matches_by_test. reflexivity.
  - apply matches_by_test. reflexivity.
  - reflexivity.
  - discriminate.
Qed.

(** ** The scraper *)

Lemma scrape_loop_acc (lower : string -> string) (items : list Tag) :
  forall idx acc,
    scrape_loop lower idx items acc = (acc ++ scrape_loop lower idx items [])%list.
Proof.
  induction items as [|tag rest IH]; intros idx acc; simpl.
  - rewrite app_nil_r. reflexivity.
  - destruct (PyStr.truthy (get_text tag)); simpl.
    + rewrite IH. rewrite (IH _ [_]). rewrite app_assoc. reflexivity.
    + apply IH.
Qed.

Lemma scrape_loop_no_titles (lower : string -> string) (items : list Tag) :
  Forall (fun tag => get_text tag = "") items ->
  forall idx acc, scrape_loop lower idx items acc = acc.
Proof.
  induction 1 as [|tag rest Ht _ IH]; intros idx acc; simpl; [reflexivity|].
  rewrite Ht. simpl. apply IH.
Qed.

(** The ids of the scraped items are the positions of the kept elements. *)
Lemma scrape_loop_ids (lower : string -> string) (items : list Tag) :
  forall idx acc,
    map id (scrape_loop lower idx items acc)
    = (map id acc ++ kept_positions idx items)%list.
Proof.
  induction items as [|tag rest IH]; intros idx acc; simpl.
  - rewrite app_nil_r. reflexivity.
  - destruct (PyStr.truthy (get_text tag)); simpl.
    + rewrite IH, map_app, <- app_assoc. reflexivity.
    + apply IH.
Qed.

(** The live path classifies every item it keeps. *)
Lemma scrape_loop_categories (lower : string -> string) (items : list Tag) :
  forall idx acc,
    Forall (fun n => In (category n) category_labels) acc ->
    Forall (fun n => In (category n) category_labels)
           (scrape_loop lower idx items acc).
Proof.
  induction items as [|tag rest IH]; intros idx acc Hacc; simpl; [exact Hacc|].
  destruct (PyStr.truthy (get_text tag)); simpl; [|apply IH; exact Hacc].
  apply IH. apply Forall_app. split; [exact Hacc|].
  constructor; [|constructor]. simpl. apply guess_category_label.
Qed.

Lemma live_items_category_known (lower : string -> string) (max_items : Z)
    (requests_get : result Response) (l : list NewsItem) :
  try_scrape lower max_items requests_get = Ok l ->
  Forall (fun n => In (category n) category_labels) l.
Proof.
  unfold try_scrape. destruct requests_get as [resp|e]; simpl; [|discriminate].
  destruct (raise_for_status resp); simpl; [|discriminate].
  destruct (select_h3 resp) as [selected|e]; simpl; [|discriminate].
  intros [= <-]. apply scrape_loop_categories. constructor.
Qed.

(** The two ways [get_bbc_news] ends. *)
Lemma get_bbc_news_cases (lower : string -> string) (max_items : Z)
    (requests_get : result Response) :
  (exists n l, try_scrape lower max_items requests_get = Ok (n :: l) /\
               get_bbc_news lower max_items requests_get = n :: l)
  \/
  ((forall l, try_scrape lower max_items requests_get = Ok l -> l = []) /\
   get_bbc_news lower max_items requests_get = fallback_items).
Proof.
  unfold get_bbc_news.
  destruct (try_scrape lower max_items requests_get) as [[|n l]|e]; simpl.
  - right. split; [intros l [= <-]; reflexivity | reflexivity].
  - left. exists n, l. split; reflexivity.
  - right. split; [intros l; discriminate | reflexivity].
Qed.

Lemma fallback_when_no_live_item (lower : string -> string) (max_items : Z)
    (requests_get : result Response) :
  (forall l, try_scrape lower max_items requests_get = Ok l -> l = []) ->
  get_bbc_news lower max_items requests_get = fallback_items.
Proof.
  intros H.
  destruct (get_bbc_news_cases lower max_items requests_get)
    as [(n & l & E & _) | [_ E]]; [|exact E].
  specialize (H _ E). discriminate H.
Qed.

Lemma failed_fetch_no_live_item (lower : string -> string) (max_items : Z)
    (requests_get : result Response) :
  live_fetch_fails requests_get \/ no_survivors max_items requests_get ->
  forall l, try_scrape lower max_items requests_get = Ok l -> l = [].
Proof.
  unfold try_scrape.
  intros [Hfail | (resp & selected & -> & Hsel & Hall)] l.
  - destruct Hfail as [e | resp Hst | resp e Hsel]; simpl.
    + discriminate.
    + unfold raise_for_status.
      assert (E : (400 <=? status_code resp) && (status_code resp <? 600) = true).
      { apply andb_true_iff. split; [apply Z.leb_le | apply Z.ltb_lt]; lia. }
      rewrite E. simpl. discriminate.
    + destruct (raise_for_status resp); simpl; [|discriminate].
      rewrite Hsel. simpl. discriminate.
  - simpl. destruct (raise_for_status resp); simpl; [|discriminate].
    rewrite Hsel. simpl. intros [= <-].
    apply scrape_loop_no_titles. exact Hall.
Qed.

Lemma get_bbc_news_nonempty (lower : string -> string) (max_items : Z)
    (requests_get : result Response) :
  get_bbc_news lower max_items requests_get <> [].
Proof.
  destruct (get_bbc_news_cases lower max_items requests_get)
    as [(n & l & _ & ->) | [_ ->]]; discriminate.
Qed.

(** The list of a failed fetch (the request raises, the status is rejected,
    the parse raises) or of a page without a surviving item is the fallback
    list: 16 items with the ids 1..16, each with the title, the literal
    category and the url of its row of the fallback table and the
    synthesized summary; the first is "AI is Transforming the World" in
    "Technology". *)
Theorem fallback_on_failure (lower : string -> string) (max_items : Z)
    (requests_get : result Response) :
  live_fetch_fails requests_get \/ no_survivors max_items requests_get ->
  length (get_bbc_news lower max_items requests_get) = 16%nat /\
  map (fun n => (title n, category n, url n))
      (get_bbc_news lower max_items requests_get) = fallback /\
  map id (get_bbc_news lower max_items requests_get) = ids_from_one 16 /\
  Forall (fun n => content n = summary (title n))
         (get_bbc_news lower max_items requests_get) /\
  exists first rest,
    get_bbc_news lower max_items requests_get = first :: rest /\
    title first = "AI is Transforming the World" /\
    category first = "Technology".
Proof.
  intros H.
  rewrite (fallback_when_no_live_item lower max_items requests_get
             (failed_fetch_no_live_item lower max_items requests_get H)).
  repeat split.
  - repeat constructor.
  - eexists _, _. repeat split.
Qed.

Lemma fallback_on_failure_witness :
  length (get_bbc_news PyStr.ascii_lower 20
            (Ok {| status_code := 503; select_h3 := Ok [] |})) = 16%nat /\
  map category (get_bbc_news PyStr.ascii_lower 20 (Raise "ConnectionError"))
  = map (fun row => snd (fst row)) fallback.
Proof.
  split.
  - apply (fallback_on_failure PyStr.ascii_lower 20
             (Ok {| status_code := 503; select_h3 := Ok [] |})).
    left. apply status_rejected. simpl. lia.
  - pose proof (fallback_on_failure PyStr.ascii_lower 20 (Raise "ConnectionError")
                  (or_introl (request_raises "ConnectionError"))) as (_ & H & _).
    rewrite <- H. rewrite map_map. reflexivity.
Defined.

(** Whenever the function with the report returns, it returns the list. *)
Lemma console_returns_list (lower : string -> string) (stdout : string -> result unit)
    (max_items : Z) (requests_get : result Response) (l : list NewsItem) :
  Console.get_bbc_news lower stdout max_items requests_get = Ok l ->
  l = get_bbc_news lower max_items requests_get.
Proof.
  unfold Console.get_bbc_news, get_bbc_news.
  destruct (try_scrape lower max_items requests_get) as [news_list|e]; simpl.
  - intros [= <-]. reflexivity.
  - destruct (Console.print stdout ["⚠️ Error fetching BBC:"; e]); simpl;
      [|discriminate].
    intros [= <-]. reflexivity.
Qed.

(** It returns when the [try] does not raise or the report is written. *)
Lemma console_returns_when_written (lower : string -> string)
    (stdout : string -> result unit) (max_items : Z) (requests_get : result Response) :
  (forall e, try_scrape lower max_items requests_get = Raise e ->
             Console.print stdout ["⚠️ Error fetching BBC:"; e] = Ok tt) ->
  Console.get_bbc_news lower stdout max_items requests_get
  = Ok (get_bbc_news lower max_items requests_get).
Proof.
  intros Hw. unfold Console.get_bbc_news, get_bbc_news.
  destruct (try_scrape lower max_items requests_get) as [news_list|e]; simpl.
  - reflexivity.
  - rewrite (Hw e eq_refl). reflexivity.
Qed.

(** An exception of the report leaves the function. *)
Lemma console_report_raises (lower : string -> string) (stdout : string -> result unit)
    (max_items : Z) (requests_get : result Response) (e e' : string) :
  try_scrape lower max_items requests_get = Raise e ->
  Console.print stdout ["⚠️ Error fetching BBC:"; e] = Raise e' ->
  Console.get_bbc_news lower stdout max_items requests_get = Raise e'.
Proof.
  intros He Hw. unfold Console.get_bbc_news. rewrite He. simpl. rewrite Hw.
  reflexivity.
Qed.

(** C4 (as amended). Whenever the live fetch raises (the request raises,
    [raise_for_status] rejects a 4xx or 5xx status, or the parse raises) or
    no extracted item survives, and the report of the exception, when one was
    raised, is written to the console, [get_bbc_news] returns the fallback
    list: 16 items with the ids 1..16, each with the title, the literal
    category (not the classifier's) and the url of its row of the fallback
    table and the synthesized summary; the first is "AI is Transforming the
    World" in "Technology". *)
Theorem fallback_when_report_written (lower : string -> string)
    (stdout : string -> result unit) (max_items : Z) (requests_get : result Response) :
  live_fetch_fails requests_get \/ no_survivors max_items requests_get ->
  (forall e, try_scrape lower max_items requests_get = Raise e ->
             Console.print stdout ["⚠️ Error fetching BBC:"; e] = Ok tt) ->
  exists l,
    Console.get_bbc_news lower stdout max_items requests_get = Ok l /\
    length l = 16%nat /\
    map (fun n => (title n, category n, url n)) l = fallback /\
    map id l = ids_from_one 16 /\
    Forall (fun n => content n = summary (title n)) l /\
    exists first rest,
      l = first :: rest /\
      title first = "AI is Transforming the World" /\
      category first = "Technology".
Proof.
  intros Hfail Hw. exists fallback_items. split.
  - rewrite (console_returns_when_written lower stdout max_items requests_get Hw).
    f_equal. apply fallback_when_no_live_item.
    apply failed_fetch_no_live_item. exact Hfail.
  - repeat split.
    + repeat constructor.
    + eexists _, _. repeat split.
Qed.

Lemma fallback_when_report_written_witness :
  exists l,
    Console.get_bbc_news PyStr.ascii_lower Console.utf8_stdout 20 (Raise "ConnectionError") = Ok l /\
    length l = 16%nat /\
    map (fun n => (title n, category n, url n)) l = fallback.
Proof.
  destruct (fallback_when_report_written PyStr.ascii_lower Console.utf8_stdout 20
              (Raise "ConnectionError"))
    as (l & Hl & Hlen & Hrows & _).
  - left. apply request_raises.
  - intros e _. reflexivity.
  - exists l. split; [exact Hl|]. split; [exact Hlen | exact Hrows].
Defined.

(** C4 as stated fails twice. A response with the status 300, which is not a
    success status and which [raise_for_status] does not reject, and a titled
    element yields the live list of that page, not the fallback list. And when
    the request raises on a console with the ASCII encoding, the report of
    the handler raises UnicodeEncodeError, which leaves the function: no
    list is returned. *)
Lemma fallback_claim_fails :
  Console.get_bbc_news PyStr.ascii_lower Console.utf8_stdout 20
    (Ok {| status_code := 300;
           select_h3 := Ok [ {| get_text := "Bank rates rise";
                                find_parent_a := Some (Some "/news/business-1") |} ] |})
  = Ok [ {| id := 1; title := "Bank rates rise";
            url := "https://www.bbc.com/news/business-1";
            content := "This is a short summary for: Bank rates rise.";
            category := "Business" |} ] /\
  Console.get_bbc_news PyStr.ascii_lower Console.ascii_stdout 20 (Raise "ConnectionError")
  = Raise "UnicodeEncodeError: 'ascii' codec can't encode characters".
Proof. split; vm_compute; reflexivity. Qed.

(** The classifier would label the sixth fallback title differently: the
    fallback categories are not its output. *)
Lemma fallback_not_reclassified :
  exists n, fallback_items !! 5%nat = Some n /\
            category n = "Environment" /\
            guess_category PyStr.ascii_lower (title n) = "World".
Proof. eexists. repeat split. Qed.

(** C3 (fails on the fallback path). When the fetch raises, the fifth item
    [get_bbc_news] returns carries the category "travel", which is not a label
    of the category table (nor the default "World"). *)
Theorem fallback_category_outside_table (lower : string -> string)
    (max_items : Z) (e : string) :
  exists n,
    get_bbc_news lower max_items (Raise e) !! 4%nat = Some n /\
    title n = "discovering the beatiful adventures" /\
    category n = "travel" /\
    ~ In (category n) category_labels.
Proof.
  eexists. split; [reflexivity|]. split; [reflexivity|]. split; [reflexivity|].
  simpl. intuition discriminate.
Qed.

(** C7 (fails on the live path). A page whose first selected element has an
    empty title and whose second has a title yields one item, with id 2: the
    ids of the surviving items are not 1..m. *)
Theorem scraped_ids_skip_positions (lower : string -> string) :
  map id (get_bbc_news lower 20
            (Ok {| status_code := 200;
                   select_h3 := Ok [ {| get_text := ""; find_parent_a := Some (Some "/news/a") |};
                                     {| get_text := "Markets rally"; find_parent_a := Some (Some "/news/b") |} ] |}))
  = [2] /\
  [2] <> ids_from_one 1.
Proof. split; [reflexivity | discriminate]. Qed.

(** ** The detail page *)

Lemma getitem_in_range {A : Type} (l : list A) (j : Z) :
  0 <= j < Z.of_nat (length l) ->
  exists x, getitem l j = Ok x /\ l !! Z.to_nat j = Some x.
Proof.
  intros Hj. unfold getitem.
  destruct (Z.ltb_spec j 0) as [Hneg|_]; [lia|].
  destruct (Z.ltb_spec j 0) as [Hneg|_]; [lia|].
  destruct (lookup_lt_is_Some_2 l (Z.to_nat j)) as [x Hx]; [lia|].
  exists x. rewrite Hx. split; reflexivity.
Qed.

(** On a list that is not empty the lookup returns the item at the position,
    or the first item when the index is out of range. *)
Lemma detail_lookup_spec (news_id : Z) (l : list NewsItem) :
  l <> [] ->
  (1 <= news_id <= Z.of_nat (length l) ->
   exists x, detail_lookup news_id l = Ok x /\ l !! Z.to_nat (news_id - 1) = Some x) /\
  (~ (1 <= news_id <= Z.of_nat (length l)) ->
   exists x, detail_lookup news_id l = Ok x /\ l !! 0%nat = Some x).
Proof.
  intros Hne. unfold detail_lookup.
  assert (Hlen : 0 < Z.of_nat (length l)).
  { destruct l; [congruence | simpl; lia]. }
  split; intros H.
  - destruct (Z.leb_spec 1 news_id); [|lia].
    destruct (Z.leb_spec news_id (Z.of_nat (length l))); [|lia].
    simpl. apply getitem_in_range. lia.
  - destruct (Z.leb_spec 1 news_id); destruct (Z.leb_spec news_id (Z.of_nat (length l)));
      simpl; try lia; apply (getitem_in_range l 0); lia.
Qed.

(** C6. For every index and every fetched list, the detail lookup returns
    the item at position [news_id] (counting from 1) when
    1 <= news_id <= length, and the first item of the list otherwise
    (0 and indices past the end included); it never raises. *)
Theorem detail_clamps_to_first (lower : string -> string) (news_id : Z)
    (requests_get : result Response) :
  (1 <= news_id <= Z.of_nat (length (get_bbc_news lower 30 requests_get)) ->
   exists x, detail lower news_id requests_get = Ok x /\
             get_bbc_news lower 30 requests_get !! Z.to_nat (news_id - 1) = Some x) /\
  (~ (1 <= news_id <= Z.of_nat (length (get_bbc_news lower 30 requests_get))) ->
   exists x, detail lower news_id requests_get = Ok x /\
             get_bbc_news lower 30 requests_get !! 0%nat = Some x) /\
  (forall e, detail lower news_id requests_get <> Raise e).
Proof.
  unfold detail.
  pose proof (detail_lookup_spec news_id (get_bbc_news lower 30 requests_get)
                (get_bbc_news_nonempty lower 30 requests_get)) as [Hin Hout].
  split; [exact Hin|]. split; [exact Hout|].
  intros e He.
  destruct (Z_le_dec 1 news_id) as [H1|H1];
    [destruct (Z_le_dec news_id (Z.of_nat (length (get_bbc_news lower 30 requests_get))))
       as [H2|H2]|].
  - destruct Hin as (x & Hx & _); [lia|]. congruence.
  - destruct Hout as (x & Hx & _); [lia|]. congruence.
  - destruct Hout as (x & Hx & _); [lia|]. congruence.
Qed.

Lemma detail_clamps_to_first_witness :
  (exists x, detail PyStr.ascii_lower 2 (Raise "timeout") = Ok x /\
             title x = "Markets Rally as Inflation Cools") /\
  (exists x, detail PyStr.ascii_lower 0 (Raise "timeout") = Ok x /\
             title x = "AI is Transforming the World") /\
  (exists x, detail PyStr.ascii_lower 17 (Raise "timeout") = Ok x /\
             title x = "AI is Transforming the World").
Proof.
  split; [|split].
  - destruct (proj1 (detail_clamps_to_first PyStr.ascii_lower 2 (Raise "timeout")))
      as (x & Hx & Hl); [simpl; lia|].
    exists x. split; [exact Hx|]. injection Hl as <-. reflexivity.
  - destruct (proj1 (proj2 (detail_clamps_to_first PyStr.ascii_lower 0 (Raise "timeout"))))
      as (x & Hx & Hl); [simpl; lia|].
    exists x. split; [exact Hx|]. injection Hl as <-. reflexivity.
  - destruct (proj1 (proj2 (detail_clamps_to_first PyStr.ascii_lower 17 (Raise "timeout"))))
      as (x & Hx & Hl); [simpl; lia|].
    exists x. split; [exact Hx|]. injection Hl as <-. reflexivity.
Defined.

(** C10. [get_bbc_news] never returns an empty list, so the access to the
    first element that the detail lookup makes is in bounds, and the lookup
    returns an item for every index. *)
Theorem fetch_never_empty (lower : string -> string) (max_items : Z)
    (requests_get : result Response) :
  get_bbc_news lower max_items requests_get <> [] /\
  (exists x, getitem (get_bbc_news lower max_items requests_get) 0 = Ok x) /\
  (forall news_id,
      exists x, detail_lookup news_id (get_bbc_news lower max_items requests_get) = Ok x).
Proof.
  pose proof (get_bbc_news_nonempty lower max_items requests_get) as Hne.
  split; [exact Hne|]. split.
  - destruct (getitem_in_range (get_bbc_news lower max_items requests_get) 0)
      as (x & Hx & _).
    + destruct (get_bbc_news lower max_items requests_get); [congruence | simpl; lia].
    + exists x. exact Hx.
  - intros news_id.
    destruct (detail_lookup_spec news_id _ Hne) as [Hin Hout].
    destruct (Z_le_dec 1 news_id) as [H1|H1];
      [destruct (Z_le_dec news_id
                   (Z.of_nat (length (get_bbc_news lower max_items requests_get))))
         as [H2|H2]|].
    + destruct Hin as (x & Hx & _); [lia | eauto].
    + destruct Hout as (x & Hx & _); [lia | eauto].
    + destruct Hout as (x & Hx & _); [lia | eauto].
Qed.

(** ** The listing *)

Lemma reassign_ids_story (l : list NewsItem) :
  forall i, map story (reassign_ids i l) = map story l.
Proof.
  induction l as [|n l IH]; intros i; simpl; [reflexivity|].
  rewrite IH. reflexivity.
Qed.

Lemma reassign_ids_length (l : list NewsItem) :
  forall i, length (reassign_ids i l) = length l.
Proof.
  induction l as [|n l IH]; intros i; simpl; [reflexivity|].
  rewrite IH. reflexivity.
Qed.

Lemma reassign_ids_ids (l : list NewsItem) :
  forall k : nat,
    map id (reassign_ids (Z.of_nat k) l) = map Z.of_nat (seq k (length l)).
Proof.
  induction l as [|n l IH]; intros k; simpl; [reflexivity|].
  replace (Z.of_nat k + 1) with (Z.of_nat (S k)) by lia.
  rewrite IH. reflexivity.
Qed.

Lemma reassign_ids_from_one (l : list NewsItem) :
  map id (reassign_ids 1 l) = ids_from_one (length l).
Proof. exact (reassign_ids_ids l 1). Qed.

Lemma cond_filter {A : Type} (b : bool) (f : A -> bool) (l : list A) :
  (if b then List.filter f l else l) = List.filter (fun x => negb b || f x) l.
Proof.
  destruct b; simpl; [reflexivity|].
  induction l as [|x l IH]; simpl; [reflexivity | congruence].
Qed.

Lemma filter_filter {A : Type} (f g : A -> bool) (l : list A) :
  List.filter g (List.filter f l) = List.filter (fun x => f x && g x) l.
Proof.
  induction l as [|x l IH]; simpl; [reflexivity|].
  destruct (f x); simpl; [destruct (g x)|]; congruence.
Qed.

Lemma filter_all {A : Type} (f : A -> bool) (l : list A) :
  (forall x, In x l -> f x = true) -> List.filter f l = l.
Proof.
  induction l as [|x l IH]; simpl; intros H; [reflexivity|].
  rewrite (H x) by (left; reflexivity). f_equal. apply IH. auto.
Qed.

Lemma truthy_false (s : string) : PyStr.truthy s = false <-> s = "".
Proof. destruct s; simpl; split; congruence. Qed.

Lemma truthy_true (s : string) : PyStr.truthy s = true <-> s <> "".
Proof. destruct s; simpl; split; congruence. Qed.

Lemma keeps_kept (lower : string -> string) (c q : string) (n : NewsItem) :
  keeps lower c q n = true <-> kept lower c q n.
Proof.
  unfold keeps, kept.
  rewrite andb_true_iff, !orb_true_iff, negb_true_iff, negb_true_iff,
    andb_false_iff, negb_false_iff, !truthy_false, !String.eqb_eq,
    !PyStrFacts.str_in_spec.
  tauto.
Qed.

(** [index] filters the fetched list by [keeps] and renumbers what is left. *)
Lemma index_filters (lower strip : string -> string) (args : gmap string string)
    (now : string) (requests_get : result Response) :
  news_list (index lower strip args now requests_get)
  = reassign_ids 1
      (List.filter (keeps lower (request_category args) (request_query lower strip args))
                   (get_bbc_news lower 30 requests_get)).
Proof.
  unfold index. cbn [news_list]. f_equal.
  rewrite (cond_filter (PyStr.truthy (request_query lower strip args))).
  rewrite (cond_filter (PyStr.truthy (request_category args)
                        && negb (String.eqb (request_category args) "All"))).
  rewrite filter_filter. reflexivity.
Qed.

(** C2. The items [index] returns are the fetched items that pass the
    category and search filters, in the order of the fetched list, and they
    carry the ids 1..k, whatever their ids were; with the category "All" (or
    no category argument) and an empty search text they are all the fetched
    items, with the ids 1..n. *)
Theorem listing_renumbers (lower strip : string -> string)
    (args : gmap string string) (now : string) (requests_get : result Response) :
  (exists keep : NewsItem -> bool,
      (forall n, keep n = true <->
                 kept lower (request_category args) (request_query lower strip args) n) /\
      map story (news_list (index lower strip args now requests_get))
      = map story (List.filter keep (get_bbc_news lower 30 requests_get))) /\
  map id (news_list (index lower strip args now requests_get))
  = ids_from_one (length (news_list (index lower strip args now requests_get))) /\
  (args !! "category" = None \/ args !! "category" = Some "All" ->
   request_query lower strip args = "" ->
   map story (news_list (index lower strip args now requests_get))
   = map story (get_bbc_news lower 30 requests_get) /\
   map id (news_list (index lower strip args now requests_get))
   = ids_from_one (length (get_bbc_news lower 30 requests_get))).
Proof.
  rewrite index_filters. split; [|split].
  - exists (keeps lower (request_category args) (request_query lower strip args)).
    split; [intros n; apply keeps_kept | apply reassign_ids_story].
  - rewrite reassign_ids_length. apply reassign_ids_from_one.
  - intros Hc Hq.
    assert (Hcat : request_category args = "All").
    { unfold request_category. destruct Hc as [-> | ->]; reflexivity. }
    rewrite filter_all.
    + split; [apply reassign_ids_story | apply reassign_ids_from_one].
    + intros n _. apply keeps_kept. unfold kept. rewrite Hcat, Hq. tauto.
Qed.

Lemma listing_renumbers_witness :
  map id (news_list (index PyStr.ascii_lower PyStr.ascii_strip ∅ "04 Nov 2026, 09:00 AM"
                       (Raise "timeout")))
  = ids_from_one 16 /\
  map story (news_list (index PyStr.ascii_lower PyStr.ascii_strip ∅ "04 Nov 2026, 09:00 AM"
                          (Raise "timeout")))
  = map story fallback_items.
Proof.
  destruct (listing_renumbers PyStr.ascii_lower PyStr.ascii_strip ∅
              "04 Nov 2026, 09:00 AM" (Raise "timeout")) as (_ & _ & H).
  destruct H as [Hs Hi].
  - left. reflexivity.
  - reflexivity.
  - split; [exact Hi | exact Hs].
Defined.

(** C5. Let the request carry the search text [raw], not empty after
    trimming and lower-casing. Without a category filter (no category
    argument, "All" or the empty string) [index] retains exactly the fetched
    items for which the lower-cased search text occurs in the lower-cased
    title or in the lower-cased content. With the category argument [c]
    (neither "All" nor empty) it retains exactly the fetched items that have
    the category [c] and pass that search test: an item is retained iff it
    satisfies both. In particular an item whose title is already lower-case
    and holds the lower-cased search text (an upper-case query, say) is
    retained when its category passes. *)
Theorem search_filter_spec (lower strip : string -> string)
    (args : gmap string string) (now : string) (requests_get : result Response)
    (raw : string) :
  args !! "q" = Some raw ->
  lower (strip raw) <> "" ->
  (args !! "category" = None \/ args !! "category" = Some "All" \/
   args !! "category" = Some "" ->
   exists keep : NewsItem -> bool,
     (forall n, keep n = true <->
        PyStr.occurs_in (lower (strip raw)) (lower (title n)) \/
        PyStr.occurs_in (lower (strip raw)) (lower (content n))) /\
     map story (news_list (index lower strip args now requests_get))
     = map story (List.filter keep (get_bbc_news lower 30 requests_get))) /\
  (forall c, args !! "category" = Some c -> c <> "" -> c <> "All" ->
   exists keep : NewsItem -> bool,
     (forall n, keep n = true <->
        category n = c /\
        (PyStr.occurs_in (lower (strip raw)) (lower (title n)) \/
         PyStr.occurs_in (lower (strip raw)) (lower (content n)))) /\
     map story (news_list (index lower strip args now requests_get))
     = map story (List.filter keep (get_bbc_news lower 30 requests_get))) /\
  (forall n, In n (get_bbc_news lower 30 requests_get) ->
     args !! "category" = None \/ args !! "category" = Some "All" \/
     args !! "category" = Some "" \/ args !! "category" = Some (category n) ->
     lower (title n) = title n ->
     PyStr.occurs_in (lower (strip raw)) (title n) ->
     In (story n) (map story (news_list (index lower strip args now requests_get)))).
Proof.
  intros Hraw Hq.
  assert (Eq : request_query lower strip args = lower (strip raw)).
  { unfold request_query. rewrite Hraw. reflexivity. }
  assert (Hkeep : forall n,
            keeps lower (request_category args) (lower (strip raw)) n = true <->
            (request_category args = "" \/ request_category args = "All" \/
             category n = request_category args) /\
            (PyStr.occurs_in (lower (strip raw)) (lower (title n)) \/
             PyStr.occurs_in (lower (strip raw)) (lower (content n)))).
  { intros n. rewrite keeps_kept. unfold kept. tauto. }
  assert (Hstories :
            map story (news_list (index lower strip args now requests_get))
            = map story (List.filter (keeps lower (request_category args)
                                            (lower (strip raw)))
                                     (get_bbc_news lower 30 requests_get))).
  { rewrite index_filters, Eq. apply reassign_ids_story. }
  split; [|split].
  - intros Hc.
    assert (Ec : request_category args = "" \/ request_category args = "All").
    { unfold request_category.
      destruct Hc as [-> | [-> | ->]]; [right | right | left]; reflexivity. }
    exists (keeps lower (request_category args) (lower (strip raw))).
    split; [|exact Hstories].
    intros n. rewrite Hkeep. tauto.
  - intros c Hc Hne1 Hne2.
    assert (Ec : request_category args = c).
    { unfold request_category. rewrite Hc. reflexivity. }
    exists (keeps lower (request_category args) (lower (strip raw))).
    split; [|exact Hstories].
    intros n. rewrite Hkeep, Ec. tauto.
  - intros n Hin Hc Hl Ho. rewrite Hstories.
    apply in_map. apply filter_In. split; [exact Hin|].
    apply Hkeep. split.
    + unfold request_category.
      destruct Hc as [-> | [-> | [-> | ->]]]; simpl; tauto.
    + left. rewrite Hl. exact Ho.
Qed.

(** With the category "Technology" and the query "  RISE ", of the three
    fallback titles that hold "rise" the one in "Technology" is listed and the
    one in "Cyber Security" is not. *)
Lemma search_filter_spec_witness :
  In ("The Rise of Electric Vehicles", "https://www.bbc.com/news/technology",
      "This is a short summary for: The Rise of Electric Vehicles.", "Technology")
     (map story (news_list (index PyStr.ascii_lower PyStr.ascii_strip
                              {[ "q" := "  RISE "; "category" := "Technology" ]}
                              "04 Nov 2026, 09:00 AM" (Raise "timeout")))) /\
  ~ In ("Cyber Security Threats on the Rise", "https://www.bbc.com/news/technology",
        "This is a short summary for: Cyber Security Threats on the Rise.",
        "Cyber Security")
       (map story (news_list (index PyStr.ascii_lower PyStr.ascii_strip
                                {[ "q" := "  RISE "; "category" := "Technology" ]}
                                "04 Nov 2026, 09:00 AM" (Raise "timeout")))).
Proof.
  destruct (search_filter_spec PyStr.ascii_lower PyStr.ascii_strip
              {[ "q" := "  RISE "; "category" := "Technology" ]}
              "04 Nov 2026, 09:00 AM" (Raise "timeout") "  RISE ")
    as (_ & Hcat & _).
  - vm_compute. reflexivity.
  - vm_compute. discriminate.
  - destruct (Hcat "Technology") as (keep & Hkeep & ->).
    + vm_compute. reflexivity.
    + discriminate.
    + discriminate.
    + split.
      * apply (in_map story _
                 {| id := 14; title := "The Rise of Electric Vehicles";
                    url := "https://www.bbc.com/news/technology";
                    content := "This is a short summary for: The Rise of Electric Vehicles.";
                    category := "Technology" |}).
        apply filter_In. split.
        -- do 13 right. left. reflexivity.
        -- apply Hkeep. split; [reflexivity|]. left.
           apply PyStrFacts.str_in_spec. vm_compute. reflexivity.
      * intros Hin. apply in_map_iff in Hin as (n & Hs & Hn).
        apply filter_In in Hn as [_ Hk]. apply Hkeep in Hk as [Hc _].
        unfold story in Hs. injection Hs as _ _ _ Hs. congruence.
Defined.

(** ** The question-answering endpoint *)

(** C8. A request whose JSON body has no question (it is no dict, it has no
    "question" key, or the question is null) or an empty one gets status 400
    and the fixed warning; the model is not called and the answer is not the
    local echo. *)
Theorem ask_without_question (cfg : Genai) (data : json) :
  data = JNotDict \/
  (exists d, data = JDict d /\
             (d !! "question" = None \/ d !! "question" = Some VNone \/
              d !! "question" = Some (VStr ""))) ->
  ask cfg (Ok data)
  = ({| answer := "⚠️ No question provided."; status := 400 |}, []).
Proof.
  intros [-> | (d & -> & [H | [H | H]])]; unfold ask, question_of;
    try rewrite H; reflexivity.
Qed.

Lemma ask_without_question_witness :
  ask {| genai_available := true;
         model := Some {| generate_content := fun _ => Raise "quota" |} |}
      (Ok (JDict {[ "topic" := VStr "news" ]}))
  = ({| answer := "⚠️ No question provided."; status := 400 |}, []).
Proof.
  apply ask_without_question. right.
  exists {[ "topic" := VStr "news" ]}. split; [reflexivity|].
  left. reflexivity.
Defined.

(** C9. A request with a question string that is not empty, when no model
    is configured, gets status 200 and the answer "(local) You asked: "
    followed by the question. *)
Theorem ask_local_echo (cfg : Genai) (d : gmap string value) (s : string) :
  s <> "" ->
  d !! "question" = Some (VStr s) ->
  genai_available cfg = false \/ model cfg = None ->
  ask cfg (Ok (JDict d))
  = ({| answer := "(local) You asked: " +:+ s; status := 200 |}, []).
Proof.
  intros Hs Hd Hcfg. unfold ask, question_of. rewrite Hd. simpl.
  apply truthy_true in Hs. rewrite Hs. simpl.
  destruct Hcfg as [-> | ->]; [reflexivity|].
  destruct (genai_available cfg); reflexivity.
Qed.

Lemma ask_local_echo_witness :
  ask {| genai_available := false; model := None |}
      (Ok (JDict {[ "question" := VStr "What is new?" ]}))
  = ({| answer := "(local) You asked: What is new?"; status := 200 |}, []).
Proof.
  apply (ask_local_echo {| genai_available := false; model := None |}
           {[ "question" := VStr "What is new?" ]} "What is new?").
  - discriminate.
  - reflexivity.
  - left. reflexivity.
Defined.

(** * Further properties of the handlers *)

(** ** Strings *)

Lemma append_assoc (a b c : string) : (a +:+ b) +:+ c = a +:+ (b +:+ c).
Proof.
  induction a as [|x a IH]; [reflexivity|].
  rewrite !PyStrFacts.append_String, IH. reflexivity.
Qed.

Lemma append_nil_r (a : string) : a +:+ "" = a.
Proof.
  induction a as [|x a IH]; [reflexivity|].
  rewrite PyStrFacts.append_String, IH. reflexivity.
Qed.

Lemma occurs_in_trans (a b c : string) :
  PyStr.occurs_in a b -> PyStr.occurs_in b c -> PyStr.occurs_in a c.
Proof.
  intros (p1 & q1 & ->) (p2 & q2 & ->).
  exists (p2 +:+ p1), (q1 +:+ q2). rewrite !append_assoc. reflexivity.
Qed.

Lemma occurs_in_append_r (k a b : string) :
  PyStr.occurs_in k b -> PyStr.occurs_in k (a +:+ b).
Proof.
  intros (p & q & ->). exists (a +:+ p), q. rewrite !append_assoc. reflexivity.
Qed.

Lemma occurs_in_append_l (k a b : string) :
  PyStr.occurs_in k a -> PyStr.occurs_in k (a +:+ b).
Proof.
  intros (p & q & ->). exists p, (q +:+ b). rewrite !append_assoc. reflexivity.
Qed.

Lemma append_not_empty (a b : string) : b <> "" -> a +:+ b <> "".
Proof.
  intros Hb H. destruct a as [|x a]; [exact (Hb H) | discriminate H].
Qed.

Lemma ascii_lower_append (a b : string) :
  PyStr.ascii_lower (a +:+ b) = PyStr.ascii_lower a +:+ PyStr.ascii_lower b.
Proof.
  induction a as [|x a IH]; [reflexivity|].
  rewrite PyStrFacts.append_String. simpl.
  rewrite IH, PyStrFacts.append_String. reflexivity.
Qed.

(** ** The classifier *)

(** When the default label is not a label of the table, the loop returns it
    only by falling through. *)
Lemma guess_loop_fell_through (items : list (string * list string)) (t : string) :
  ~ In "World" (map fst items) ->
  guess_loop items t = "World" ->
  forall c kc, In (c, kc) items -> ~ matches kc t.
Proof.
  induction items as [|[c0 k0] items IH]; simpl; intros Hw Hg c kc Hin; [contradiction|].
  destruct (existsb (fun k => PyStr.str_in k t) k0) eqn:E.
  - exfalso. apply Hw. left. exact Hg.
  - destruct Hin as [Heq | Hin].
    + injection Heq as <- <-. apply existsb_no_match. exact E.
    + apply (IH (fun H => Hw (or_intror H)) Hg c kc Hin).
Qed.

(** X1. The label "World" has two meanings: [guess_category] returns it
    exactly when a World keyword occurs in the lower-cased headline or when
    no category of the table matches at all. *)
Theorem guess_category_World_iff (lower : string -> string) (title : string) :
  guess_category lower title = "World" <->
  matches ["world"; "global"; "ukraine"; "india"; "china"; "europe"; "middle east"; "africa"; "america"]
          (lower title) \/
  (forall c kc, In (c, kc) CATEGORY_KEYWORDS -> ~ matches kc (lower title)).
Proof.
  unfold guess_category.
  change CATEGORY_KEYWORDS with
    (("World", ["world"; "global"; "ukraine"; "india"; "china"; "europe"; "middle east"; "africa"; "america"])
       :: skipn 1 CATEGORY_KEYWORDS) at 1.
  cbn [guess_loop].
  destruct (existsb _ _) eqn:E.
  - split; [intros _; left; apply existsb_matches; exact E | reflexivity].
  - split.
    + intros Hg. right. intros c kc Hin.
      change CATEGORY_KEYWORDS with
        (("World", ["world"; "global"; "ukraine"; "india"; "china"; "europe"; "middle east"; "africa"; "america"])
           :: skipn 1 CATEGORY_KEYWORDS) in Hin.
      destruct Hin as [Heq | Hin].
      * injection Heq as <- <-. apply existsb_no_match. exact E.
      * revert c kc Hin. apply guess_loop_fell_through; [|exact Hg].
        simpl. intuition discriminate.
    + intros [Hm | Hnone].
      * apply existsb_no_match in E. contradiction.
      * apply guess_loop_none. intros c kc Hin. apply (Hnone c kc).
        right. exact Hin.
Qed.

(** X2. The keyword "faith" of Spiritual never decides: "ai", a keyword of
    Technology, occurs in it, so a headline that holds "faith" is classified
    as World, Business or Technology and never as Spiritual. *)
Theorem faith_is_shadowed (lower : string -> string) (title : string) :
  PyStr.occurs_in "faith" (lower title) ->
  In (guess_category lower title) ["World"; "Business"; "Technology"] /\
  guess_category lower title <> "Spiritual".
Proof.
  intros Hf.
  assert (Hm : matches ["tech"; "technology"; "ai"; "artificial intelligence"; "software";
                        "app"; "iphone"; "android"; "robot"; "chip"] (lower title)).
  { exists "ai". split; [simpl; tauto|].
    apply (occurs_in_trans "ai" "faith"); [|exact Hf].
    exists "f", "th". reflexivity. }
  pose proof (guess_loop_not_later (firstn 2 CATEGORY_KEYWORDS) (skipn 3 CATEGORY_KEYWORDS)
                "Technology" _ (lower title) Hm) as Hin.
  change (firstn 2 CATEGORY_KEYWORDS ++ _ :: skipn 3 CATEGORY_KEYWORDS)%list
    with CATEGORY_KEYWORDS in Hin.
  fold (guess_category lower title) in Hin.
  split; [exact Hin|].
  intros Heq. rewrite Heq in Hin. simpl in Hin. intuition discriminate.
Qed.

Lemma faith_is_shadowed_witness :
  guess_category PyStr.ascii_lower "Faith leaders gather" <> "Spiritual".
Proof.
  apply (faith_is_shadowed PyStr.ascii_lower "Faith leaders gather").
  apply PyStrFacts.str_in_spec. reflexivity.
Defined.

(** ** The scraper *)

Lemma make_link_not_empty (parent_a : option (option string)) :
  make_link parent_a <> "".
Proof.
  unfold make_link. destruct parent_a as [[h|]|]; [|intros H; discriminate H..].
  destruct h as [|c h]; cbn [PyStr.truthy andb]; [intros H; discriminate H|].
  destruct (PyStr.startswith (String c h) "/").
  - apply append_not_empty. intros H; discriminate H.
  - intros H; discriminate H.
Qed.

Lemma try_scrape_ok (lower : string -> string) (max_items : Z)
    (resp : Response) (selected : list Tag) :
  ~ (400 <= status_code resp < 600) ->
  select_h3 resp = Ok selected ->
  try_scrape lower max_items (Ok resp)
  = Ok (scrape_loop lower 1 (slice_to max_items selected) []).
Proof.
  intros Hst Hsel. unfold try_scrape, raise_for_status. simpl.
  destruct ((400 <=? status_code resp) && (status_code resp <? 600)) eqn:E.
  - apply andb_true_iff in E as [E1 E2].
    apply Z.leb_le in E1. apply Z.ltb_lt in E2. lia.
  - simpl. rewrite Hsel. reflexivity.
Qed.

Lemma try_scrape_inv (lower : string -> string) (max_items : Z)
    (requests_get : result Response) (l : list NewsItem) :
  try_scrape lower max_items requests_get = Ok l ->
  exists resp selected,
    requests_get = Ok resp /\
    ~ (400 <= status_code resp < 600) /\
    select_h3 resp = Ok selected /\
    l = scrape_loop lower 1 (slice_to max_items selected) [].
Proof.
  unfold try_scrape, raise_for_status.
  destruct requests_get as [resp|e]; simpl; [|discriminate].
  destruct ((400 <=? status_code resp) && (status_code resp <? 600)) eqn:E;
    simpl; [discriminate|].
  destruct (select_h3 resp) as [selected|e] eqn:Hsel; simpl; [|discriminate].
  intros [= <-]. exists resp, selected. repeat split; auto.
  intros [H1 H2]. apply andb_false_iff in E as [E | E].
  - apply Z.leb_gt in E. lia.
  - apply Z.ltb_ge in E. lia.
Qed.

(** The titles and links of the scraped items are those of the elements with
    a title, in order. *)
Lemma scrape_loop_titles_urls (lower : string -> string) (items : list Tag) :
  forall idx acc,
    map (fun n => (title n, url n)) (scrape_loop lower idx items acc)
    = (map (fun n => (title n, url n)) acc
       ++ map (fun tag => (get_text tag, make_link (find_parent_a tag)))
              (List.filter (fun tag => PyStr.truthy (get_text tag)) items))%list.
Proof.
  induction items as [|tag rest IH]; intros idx acc; simpl.
  - rewrite app_nil_r. reflexivity.
  - destruct (PyStr.truthy (get_text tag)); simpl.
    + rewrite IH, map_app, <- app_assoc. reflexivity.
    + apply IH.
Qed.

Lemma scrape_loop_Forall (lower : string -> string) (P : NewsItem -> Prop) :
  (forall idx tag,
      PyStr.truthy (get_text tag) = true ->
      P {| id := idx; title := get_text tag; url := make_link (find_parent_a tag);
           content := summary (get_text tag);
           category := guess_category lower (get_text tag) |}) ->
  forall items idx acc,
    Forall P acc -> Forall P (scrape_loop lower idx items acc).
Proof.
  intros HP items. induction items as [|tag rest IH]; intros idx acc Hacc; simpl;
    [exact Hacc|].
  destruct (PyStr.truthy (get_text tag)) eqn:E; simpl; [|apply IH; exact Hacc].
  apply IH. apply Forall_app. split; [exact Hacc|].
  constructor; [apply HP; exact E | constructor].
Qed.

Lemma kept_positions_bounds (items : list Tag) :
  forall idx,
    Forall (fun i => idx <= i < idx + Z.of_nat (length items))
           (kept_positions idx items).
Proof.
  induction items as [|tag rest IH]; intros idx; cbn [kept_positions];
    [constructor|].
  assert (H : Forall (fun i => idx <= i < idx + Z.of_nat (length (tag :: rest)))
                     (kept_positions (idx + 1) rest)).
  { eapply List.Forall_impl; [|apply IH]. cbn [length]. intros i Hi. lia. }
  destruct (PyStr.truthy (get_text tag)); [|exact H].
  constructor; [cbn [length]; lia | exact H].
Qed.

Lemma kept_positions_sorted (items : list Tag) :
  forall idx, StronglySorted Z.lt (kept_positions idx items).
Proof.
  induction items as [|tag rest IH]; intros idx; simpl; [constructor|].
  destruct (PyStr.truthy (get_text tag)); [|apply IH].
  constructor; [apply IH|].
  eapply List.Forall_impl; [|apply kept_positions_bounds]. simpl. intros i Hi. lia.
Qed.

Lemma kept_positions_length (items : list Tag) :
  forall idx, (length (kept_positions idx items) <= length items)%nat.
Proof.
  induction items as [|tag rest IH]; intros idx; simpl; [lia|].
  destruct (PyStr.truthy (get_text tag)); simpl; specialize (IH (idx + 1)); lia.
Qed.

Lemma slice_to_length {A : Type} (m : Z) (l : list A) :
  0 <= m -> (length (slice_to m l) <= Z.to_nat m)%nat.
Proof.
  intros Hm. unfold slice_to.
  destruct (Z.ltb_spec m 0); [lia|].
  rewrite length_firstn. lia.
Qed.

Lemma StronglySorted_lt_NoDup (l : list Z) :
  StronglySorted Z.lt l -> List.NoDup l.
Proof.
  induction 1 as [|x l Hs IH Hall]; constructor; [|exact IH].
  intros Hin. rewrite List.Forall_forall in Hall. specialize (Hall x Hin). lia.
Qed.

(** X3. When the response is not rejected, the parse succeeds and some
    selected element within [max_items] has a title, [get_bbc_news] returns
    the live list: one item per element with a title, in page order, with
    that title, the link made from its anchor, the synthesized summary, the
    category the classifier gives the title, and the element's position as
    id. *)
Theorem live_items_follow_page (lower : string -> string) (max_items : Z)
    (resp : Response) (selected : list Tag) :
  ~ (400 <= status_code resp < 600) ->
  select_h3 resp = Ok selected ->
  Exists (fun tag => get_text tag <> "") (slice_to max_items selected) ->
  map (fun n => (title n, url n)) (get_bbc_news lower max_items (Ok resp))
  = map (fun tag => (get_text tag, make_link (find_parent_a tag)))
        (List.filter (fun tag => PyStr.truthy (get_text tag))
                     (slice_to max_items selected)) /\
  Forall (fun n => category n = guess_category lower (title n) /\
                   content n = summary (title n))
         (get_bbc_news lower max_items (Ok resp)) /\
  map id (get_bbc_news lower max_items (Ok resp))
  = kept_positions 1 (slice_to max_items selected).
Proof.
  intros Hst Hsel Hex.
  assert (E : get_bbc_news lower max_items (Ok resp)
              = scrape_loop lower 1 (slice_to max_items selected) []).
  { unfold get_bbc_news. rewrite (try_scrape_ok lower max_items resp selected Hst Hsel).
    simpl.
    destruct (scrape_loop lower 1 (slice_to max_items selected) []) as [|n l] eqn:El;
      [|reflexivity].
    exfalso.
    pose proof (scrape_loop_titles_urls lower (slice_to max_items selected) 1 []) as Ht.
    rewrite El in Ht. simpl in Ht.
    apply Exists_exists in Hex as (tag & Hin & Hne).
    assert (Hf : In tag (List.filter (fun tag => PyStr.truthy (get_text tag))
                                     (slice_to max_items selected))).
    { apply filter_In. split; [apply list_elem_of_In; exact Hin|].
      apply truthy_true. exact Hne. }
    destruct (List.filter _ (slice_to max_items selected)); [exact Hf | discriminate Ht]. }
  rewrite E. split; [|split].
  - apply (scrape_loop_titles_urls lower _ 1 []).
  - apply scrape_loop_Forall; [|constructor]. intros; split; reflexivity.
  - apply (scrape_loop_ids lower _ 1 []).
Qed.

Lemma live_items_follow_page_witness :
  map (fun n => (title n, url n))
      (get_bbc_news PyStr.ascii_lower 20
         (Ok {| status_code := 200;
                select_h3 := Ok [ {| get_text := ""; find_parent_a := None |};
                                  {| get_text := "Bank rates rise";
                                     find_parent_a := Some (Some "/news/business-1") |} ] |}))
  = [("Bank rates rise", "https://www.bbc.com/news/business-1")].
Proof.
  apply (live_items_follow_page PyStr.ascii_lower 20
           {| status_code := 200;
              select_h3 := Ok [ {| get_text := ""; find_parent_a := None |};
                                {| get_text := "Bank rates rise";
                                   find_parent_a := Some (Some "/news/business-1") |} ] |}
           [ {| get_text := ""; find_parent_a := None |};
             {| get_text := "Bank rates rise";
                find_parent_a := Some (Some "/news/business-1") |} ]).
  - simpl. lia.
  - reflexivity.
  - apply Exists_cons_tl. apply Exists_cons_hd. discriminate.
Defined.

(** Both paths synthesize the content from the title. *)
Lemma fetched_content_is_summary (lower : string -> string) (max_items : Z)
    (requests_get : result Response) :
  Forall (fun n => content n = summary (title n))
         (get_bbc_news lower max_items requests_get).
Proof.
  destruct (get_bbc_news_cases lower max_items requests_get)
    as [(n & l & E & ->) | [_ ->]].
  - apply try_scrape_inv in E as (resp & selected & _ & _ & _ & ->).
    apply scrape_loop_Forall; [|constructor]. reflexivity.
  - repeat constructor.
Qed.

(** X4. On both paths every item [get_bbc_news] returns has a title and a
    url that are not empty, and its content is the summary synthesized from
    its title. *)
Theorem fetched_items_well_formed (lower : string -> string) (max_items : Z)
    (requests_get : result Response) :
  Forall (fun n => title n <> "" /\ url n <> "" /\ content n = summary (title n))
         (get_bbc_news lower max_items requests_get).
Proof.
  destruct (get_bbc_news_cases lower max_items requests_get)
    as [(n & l & E & ->) | [_ ->]].
  - apply try_scrape_inv in E as (resp & selected & _ & _ & _ & ->).
    apply scrape_loop_Forall; [|constructor].
    intros idx tag Ht. simpl. split; [apply truthy_true; exact Ht|].
    split; [apply make_link_not_empty | reflexivity].
  - repeat constructor; discriminate.
Qed.

(** X5. On both paths the ids of the returned items are at least 1 and
    strictly increasing along the list, so no two items share an id. *)
Theorem fetched_ids_increasing (lower : string -> string) (max_items : Z)
    (requests_get : result Response) :
  StronglySorted Z.lt (map id (get_bbc_news lower max_items requests_get)) /\
  Forall (fun i => 1 <= i) (map id (get_bbc_news lower max_items requests_get)) /\
  List.NoDup (map id (get_bbc_news lower max_items requests_get)).
Proof.
  assert (H : StronglySorted Z.lt (map id (get_bbc_news lower max_items requests_get)) /\
              Forall (fun i => 1 <= i) (map id (get_bbc_news lower max_items requests_get))).
  { destruct (get_bbc_news_cases lower max_items requests_get)
      as [(n & l & E & ->) | [_ ->]].
    - apply try_scrape_inv in E as (resp & selected & _ & _ & _ & ->).
      rewrite (scrape_loop_ids lower _ 1 []). simpl. split.
      + apply kept_positions_sorted.
      + eapply List.Forall_impl; [|apply kept_positions_bounds]. simpl. intros i Hi. lia.
    - split.
      + repeat (constructor; [|repeat (constructor; [reflexivity|]); constructor]).
        constructor.
      + repeat (constructor; [discriminate|]). constructor. }
  destruct H as [Hs Hf]. split; [exact Hs|]. split; [exact Hf|].
  apply StronglySorted_lt_NoDup. exact Hs.
Qed.

(** X6. With a bound that is not negative, [get_bbc_news] returns at most
    [max_items] items from the page, or the 16 fallback items: never more
    than the larger of [max_items] and 16. *)
Theorem fetched_length_bounded (lower : string -> string) (max_items : Z)
    (requests_get : result Response) :
  0 <= max_items ->
  Z.of_nat (length (get_bbc_news lower max_items requests_get)) <= Z.max max_items 16.
Proof.
  intros Hm.
  destruct (get_bbc_news_cases lower max_items requests_get)
    as [(n & l & E & ->) | [_ ->]].
  - apply try_scrape_inv in E as (resp & selected & _ & _ & _ & ->).
    rewrite <- (length_map id), (scrape_loop_ids lower _ 1 []). simpl.
    pose proof (kept_positions_length (slice_to max_items selected) 1).
    pose proof (slice_to_length max_items selected Hm). lia.
  - change (length fallback_items) with 16%nat. lia.
Qed.

Lemma fetched_length_bounded_witness :
  Z.of_nat (length (get_bbc_news PyStr.ascii_lower 1
     (Ok {| status_code := 200;
            select_h3 := Ok [ {| get_text := "One"; find_parent_a := None |};
                              {| get_text := "Two"; find_parent_a := None |} ] |})))
  <= Z.max 1 16.
Proof.
  apply fetched_length_bounded. lia.
Defined.

(** X7. The link [make_link] returns, case by case: an href that starts
    with a slash is prefixed with the origin https://www.bbc.com; any other
    href that is not empty is kept verbatim (a relative href such as
    "news/x" stays relative); an empty href, an anchor without href and a
    missing anchor give the default link https://www.bbc.com/news. So the
    link is never empty. *)
Theorem make_link_cases :
  (forall r, make_link (Some (Some ("/" +:+ r))) = "https://www.bbc.com" +:+ "/" +:+ r) /\
  (forall h, h <> "" -> (forall r, h <> "/" +:+ r) ->
             make_link (Some (Some h)) = h) /\
  make_link (Some (Some "")) = "https://www.bbc.com/news" /\
  make_link (Some None) = "https://www.bbc.com/news" /\
  make_link None = "https://www.bbc.com/news" /\
  (forall parent_a, make_link parent_a <> "").
Proof.
  split; [|split; [|split; [|split; [|split]]]]; try reflexivity.
  - intros h Hne Hslash. unfold make_link.
    apply truthy_true in Hne. rewrite Hne.
    destruct (PyStr.startswith h "/") eqn:E; [|reflexivity].
    apply PyStrFacts.startswith_spec in E as [r Hr].
    exfalso. exact (Hslash r Hr).
  - exact make_link_not_empty.
Qed.

Lemma make_link_cases_witness :
  make_link (Some (Some "https://www.bbc.co.uk/sport")) = "https://www.bbc.co.uk/sport" /\
  make_link (Some (Some "news/x")) = "news/x".
Proof.
  split.
  - apply (proj1 (proj2 make_link_cases)); [discriminate|].
    intros r H. discriminate H.
  - apply (proj1 (proj2 make_link_cases)); [discriminate|].
    intros r H. discriminate H.
Defined.

(** ** The listing *)

Lemma filter_sublist {A : Type} (f : A -> bool) (l : list A) :
  sublist (List.filter f l) l.
Proof.
  induction l as [|x l IH]; simpl; [constructor|].
  destruct (f x); [apply sublist_skip | apply sublist_cons]; exact IH.
Qed.

Lemma map_sublist {A B : Type} (f : A -> B) (l1 l2 : list A) :
  sublist l1 l2 -> sublist (map f l1) (map f l2).
Proof.
  induction 1; simpl; [constructor | apply sublist_skip | apply sublist_cons]; assumption.
Qed.

Lemma reassign_ids_lookup (l : list NewsItem) :
  forall (k : Z) (j : nat),
    reassign_ids k l !! j = set_id (k + Z.of_nat j) <$> l !! j.
Proof.
  induction l as [|n l IH]; intros k j; [reflexivity|].
  destruct j as [|j]; simpl.
  - replace (k + Z.of_nat 0) with k by lia. reflexivity.
  - change (reassign_ids (k + 1) l !! j = set_id (k + Z.of_nat (S j)) <$> l !! j).
    rewrite IH. replace (k + 1 + Z.of_nat j) with (k + Z.of_nat (S j)) by lia.
    reflexivity.
Qed.

Lemma reassign_ids_category (c : string) (l : list NewsItem) :
  forall i, Forall (fun n => category n = c) l ->
            Forall (fun n => category n = c) (reassign_ids i l).
Proof.
  induction l as [|n l IH]; intros i H; simpl; [constructor|].
  apply List.Forall_cons_iff in H as [Hn Hl].
  constructor; [exact Hn | apply IH; exact Hl].
Qed.

Lemma get_bbc_news_30_length (lower : string -> string)
    (requests_get : result Response) :
  (length (get_bbc_news lower 30 requests_get) <= 30)%nat.
Proof.
  destruct (get_bbc_news_cases lower 30 requests_get)
    as [(n & l & E & ->) | [_ ->]].
  - apply try_scrape_inv in E as (resp & selected & _ & _ & _ & ->).
    rewrite <- (length_map id), (scrape_loop_ids lower _ 1 []). simpl.
    pose proof (kept_positions_length (slice_to 30 selected) 1).
    pose proof (slice_to_length 30 selected ltac:(lia)). lia.
  - change (length fallback_items) with 16%nat. lia.
Qed.

(** X8. Whatever the filters, the stories [index] lists are a sub-sequence
    of the fetched stories (nothing is added, repeated or reordered), and a
    listing never has more than 30 items. *)
Theorem listing_is_sublist (lower strip : string -> string)
    (args : gmap string string) (now : string) (requests_get : result Response) :
  sublist (map story (news_list (index lower strip args now requests_get)))
          (map story (get_bbc_news lower 30 requests_get)) /\
  (length (news_list (index lower strip args now requests_get))
   <= length (get_bbc_news lower 30 requests_get))%nat /\
  (length (news_list (index lower strip args now requests_get)) <= 30)%nat.
Proof.
  rewrite index_filters, reassign_ids_story, reassign_ids_length.
  assert (Hs : sublist (List.filter (keeps lower (request_category args)
                                           (request_query lower strip args))
                                    (get_bbc_news lower 30 requests_get))
                       (get_bbc_news lower 30 requests_get))
    by apply filter_sublist.
  pose proof (sublist_length _ _ Hs) as Hl.
  pose proof (get_bbc_news_30_length lower requests_get) as H30.
  split; [apply map_sublist; exact Hs|]. split; lia.
Qed.

(** X9. With a category argument other than "" and "All", every listed item
    has exactly that category, and when no fetched item has it the listing is
    empty. *)
Theorem category_filter_exact (lower strip : string -> string)
    (args : gmap string string) (now : string) (requests_get : result Response) :
  request_category args <> "" ->
  request_category args <> "All" ->
  Forall (fun n => category n = request_category args)
         (news_list (index lower strip args now requests_get)) /\
  ((forall n, In n (get_bbc_news lower 30 requests_get) ->
              category n <> request_category args) ->
   news_list (index lower strip args now requests_get) = []).
Proof.
  intros H1 H2. rewrite index_filters. split.
  - apply reassign_ids_category. apply List.Forall_forall. intros n Hin.
    apply filter_In in Hin as [_ Hk]. apply keeps_kept in Hk as [Hc _]. tauto.
  - intros Hnone.
    assert (E : List.filter (keeps lower (request_category args)
                                   (request_query lower strip args))
                            (get_bbc_news lower 30 requests_get) = []).
    { destruct (List.filter _ _) as [|n l] eqn:El; [reflexivity|]. exfalso.
      assert (Hin : In n (List.filter (keeps lower (request_category args)
                                             (request_query lower strip args))
                                      (get_bbc_news lower 30 requests_get)))
        by (rewrite El; left; reflexivity).
      apply filter_In in Hin as [Hin Hk]. apply keeps_kept in Hk as [Hc _].
      specialize (Hnone n Hin). tauto. }
    rewrite E. reflexivity.
Qed.

Lemma category_filter_exact_witness :
  news_list (index PyStr.ascii_lower PyStr.ascii_strip {[ "category" := "Spiritual" ]}
               "04 Nov 2026, 09:00 AM" (Raise "timeout")) = [].
Proof.
  apply (category_filter_exact PyStr.ascii_lower PyStr.ascii_strip
           {[ "category" := "Spiritual" ]} "04 Nov 2026, 09:00 AM" (Raise "timeout")).
  - discriminate.
  - discriminate.
  - intros n Hin. simpl in Hin.
    repeat (destruct Hin as [<- | Hin]; [discriminate|]). contradiction.
Defined.

(** X10. The listing and the detail page agree on one response: without a
    category filter and with an empty search text, the item listed at
    position [news_id] is the item [detail] returns for [news_id], with
    [news_id] as its id. *)
Theorem listing_position_is_detail (lower strip : string -> string)
    (args : gmap string string) (now : string) (requests_get : result Response)
    (news_id : Z) :
  args !! "category" = None \/ args !! "category" = Some "All" ->
  request_query lower strip args = "" ->
  1 <= news_id <= Z.of_nat (length (news_list (index lower strip args now requests_get))) ->
  exists x,
    detail lower news_id requests_get = Ok x /\
    news_list (index lower strip args now requests_get) !! Z.to_nat (news_id - 1)
    = Some (set_id news_id x).
Proof.
  intros Hc Hq. rewrite index_filters.
  assert (Hcat : request_category args = "All").
  { unfold request_category. destruct Hc as [-> | ->]; reflexivity. }
  rewrite filter_all.
  2:{ intros n _. apply keeps_kept. unfold kept. rewrite Hcat, Hq. tauto. }
  rewrite reassign_ids_length. intros Hid.
  destruct (detail_lookup_spec news_id (get_bbc_news lower 30 requests_get)
              (get_bbc_news_nonempty lower 30 requests_get)) as [Hin _].
  destruct (Hin Hid) as (x & Hx & Hl).
  exists x. split; [exact Hx|].
  rewrite reassign_ids_lookup, Hl. simpl. f_equal. f_equal. lia.
Qed.

Lemma listing_position_is_detail_witness :
  exists x,
    detail PyStr.ascii_lower 3 (Raise "timeout") = Ok x /\
    news_list (index PyStr.ascii_lower PyStr.ascii_strip ∅ "04 Nov 2026, 09:00 AM"
                 (Raise "timeout")) !! 2%nat = Some (set_id 3 x).
Proof.
  apply (listing_position_is_detail PyStr.ascii_lower PyStr.ascii_strip ∅
           "04 Nov 2026, 09:00 AM" (Raise "timeout") 3).
  - left. reflexivity.
  - reflexivity.
  - vm_compute. split; intros H; discriminate H.
Defined.

(** X11. The search also reads the fixed words of the summary. Assume that
    lower-casing a summary lower-cases its three parts (the words before the
    title, the title, the full stop), as [str.lower] does: it works character
    by character but for the form of a final sigma, which depends on the
    neighbouring letters, and the summary puts a space before the title and a
    full stop after it. Then an item whose lower-cased title holds the search
    text also matches on its content, and a search text that occurs in the
    lower-cased words "This is a short summary for: " keeps every fetched
    item when no category filter is set. *)
Theorem search_reads_summary_words (lower strip : string -> string)
    (args : gmap string string) (now : string) (requests_get : result Response) :
  (forall t, lower (summary t)
             = lower "This is a short summary for: " +:+ lower t +:+ lower ".") ->
  (forall n, In n (get_bbc_news lower 30 requests_get) ->
             PyStr.occurs_in (request_query lower strip args) (lower (title n)) ->
             PyStr.occurs_in (request_query lower strip args) (lower (content n))) /\
  (PyStr.occurs_in (request_query lower strip args)
                   (lower "This is a short summary for: ") ->
   args !! "category" = None \/ args !! "category" = Some "All" ->
   map story (news_list (index lower strip args now requests_get))
   = map story (get_bbc_news lower 30 requests_get)).
Proof.
  intros Hsum.
  assert (Hcontent : forall n, In n (get_bbc_news lower 30 requests_get) ->
            lower (content n)
            = lower "This is a short summary for: " +:+ lower (title n) +:+ lower ".").
  { intros n Hin.
    pose proof (fetched_content_is_summary lower 30 requests_get) as Hall.
    rewrite List.Forall_forall in Hall. rewrite (Hall n Hin). apply Hsum. }
  split.
  - intros n Hin Ht. rewrite (Hcontent n Hin).
    apply occurs_in_append_r, occurs_in_append_l. exact Ht.
  - intros Hs Hc.
    assert (Hcat : request_category args = "All").
    { unfold request_category. destruct Hc as [-> | ->]; reflexivity. }
    rewrite index_filters, reassign_ids_story, filter_all; [reflexivity|].
    intros n Hin. apply keeps_kept. unfold kept. rewrite Hcat.
    split; [tauto|]. right. right. rewrite (Hcontent n Hin).
    apply occurs_in_append_l. exact Hs.
Qed.

Lemma search_reads_summary_words_witness :
  map story (news_list (index PyStr.ascii_lower PyStr.ascii_strip {[ "q" := "SUMMARY" ]}
                          "04 Nov 2026, 09:00 AM" (Raise "timeout")))
  = map story fallback_items.
Proof.
  apply (search_reads_summary_words PyStr.ascii_lower PyStr.ascii_strip
           {[ "q" := "SUMMARY" ]} "04 Nov 2026, 09:00 AM" (Raise "timeout")).
  - intros t. unfold summary. rewrite !ascii_lower_append. reflexivity.
  - apply PyStrFacts.str_in_spec. reflexivity.
  - left. reflexivity.
Defined.

(** ** The question-answering endpoint *)

(** X12. The status of a reply tells what happened to the request: 500
    exactly when reading the JSON body raised, 400 exactly when the body was
    read and holds no true question, 200 exactly when it holds one (whatever
    the model then does). *)
Theorem ask_status_cases (cfg : Genai) (get_json : result json) :
  (status (fst (ask cfg get_json)) = 500 <-> exists e, get_json = Raise e) /\
  (status (fst (ask cfg get_json)) = 400 <->
   exists data, get_json = Ok data /\ value_truthy (question_of data) = false) /\
  (status (fst (ask cfg get_json)) = 200 <->
   exists data, get_json = Ok data /\ value_truthy (question_of data) = true).
Proof.
  unfold ask. destruct get_json as [data|e]; simpl.
  - destruct (value_truthy (question_of data)) eqn:E; simpl.
    + assert (Hs : forall r : Reply * list value,
                 r = match genai_available cfg, model cfg with
                     | true, Some m =>
                         ({| answer := try_except
                                         (response ← generate_content m (question_of data);
                                          answer_of response)
                                         (fun e => "⚠️ Gemini error: " +:+ e);
                             status := 200 |}, [question_of data])
                     | _, _ =>
                         ({| answer := "(local) You asked: " +:+ format (question_of data);
                             status := 200 |}, [])
                     end -> status (fst r) = 200).
      { intros r ->. destruct (genai_available cfg), (model cfg); reflexivity. }
      rewrite (Hs _ eq_refl).
      split; [|split].
      * split; [discriminate | intros [e He]; discriminate He].
      * split; [discriminate | intros (d & [= <-] & Hd); congruence].
      * split; [intros _; exists data; auto | reflexivity].
    + split; [|split].
      * split; [discriminate | intros [e He]; discriminate He].
      * split; [intros _; exists data; auto | reflexivity].
      * split; [discriminate | intros (d & [= <-] & Hd); congruence].
  - split; [|split].
    + split; [intros _; exists e; reflexivity | reflexivity].
    + split; [discriminate | intros (d & Hd & _); discriminate Hd].
    + split; [discriminate | intros (d & Hd & _); discriminate Hd].
Qed.

(** X13. A request calls the model at most once, and only when the client
    is available and a model is set, with the request's own true question
    as the prompt. *)
Theorem ask_calls_model_at_most_once (cfg : Genai) (get_json : result json) :
  (length (snd (ask cfg get_json)) <= 1)%nat /\
  (forall prompt, In prompt (snd (ask cfg get_json)) ->
     exists data m,
       get_json = Ok data /\ prompt = question_of data /\
       value_truthy prompt = true /\
       genai_available cfg = true /\ model cfg = Some m).
Proof.
  unfold ask. destruct get_json as [data|e]; simpl; [|split; [lia | intros ? []]].
  destruct (value_truthy (question_of data)) eqn:E; simpl;
    [|split; [lia | intros ? []]].
  destruct (genai_available cfg) eqn:Ea; [|simpl; split; [lia | intros ? []]].
  destruct (model cfg) as [m|] eqn:Em; simpl; [|split; [lia | intros ? []]].
  split; [lia|]. intros prompt [<- | []].
  exists data, m. repeat split; auto.
Qed.

(** X14. With the model configured and a true question, the reply has
    status 200 whatever the model does: an exception of the call or of the
    response's text is reported inside the answer, a text that is not empty
    is the answer, and a response without text (or with an empty one) is
    answered by its string form. *)
Theorem ask_model_outcomes (cfg : Genai) (m : GenerativeModel) (data : json) :
  genai_available cfg = true ->
  model cfg = Some m ->
  value_truthy (question_of data) = true ->
  status (fst (ask cfg (Ok data))) = 200 /\
  (forall e, generate_content m (question_of data) = Raise e ->
     answer (fst (ask cfg (Ok data))) = "⚠️ Gemini error: " +:+ e) /\
  (forall response e,
     generate_content m (question_of data) = Ok response ->
     gen_text response = Raise e ->
     answer (fst (ask cfg (Ok data))) = "⚠️ Gemini error: " +:+ e) /\
  (forall response t,
     generate_content m (question_of data) = Ok response ->
     gen_text response = Ok (Some t) -> t <> "" ->
     answer (fst (ask cfg (Ok data))) = t) /\
  (forall response,
     generate_content m (question_of data) = Ok response ->
     gen_text response = Ok None \/ gen_text response = Ok (Some "") ->
     answer (fst (ask cfg (Ok data))) = gen_str response).
Proof.
  intros Ha Hm Hq. unfold ask. rewrite Hq, Ha, Hm. simpl.
  split; [reflexivity|]. split; [|split; [|split]].
  - intros e ->. reflexivity.
  - intros response e -> Ht. simpl. unfold answer_of. rewrite Ht. reflexivity.
  - intros response t -> Ht Hne. simpl. unfold answer_of. rewrite Ht. simpl.
    apply truthy_true in Hne. rewrite Hne. reflexivity.
  - intros response -> [Ht | Ht]; simpl; unfold answer_of; rewrite Ht; reflexivity.
Qed.

Lemma ask_model_outcomes_witness :
  answer (fst (ask {| genai_available := true;
                      model := Some {| generate_content := fun _ => Raise "quota exceeded" |} |}
                   (Ok (JDict {[ "question" := VStr "Why?" ]}))))
  = "⚠️ Gemini error: quota exceeded".
Proof.
  apply (ask_model_outcomes
           {| genai_available := true;
              model := Some {| generate_content := fun _ => Raise "quota exceeded" |} |}
           {| generate_content := fun _ => Raise "quota exceeded" |}
           (JDict {[ "question" := VStr "Why?" ]})); reflexivity.
Defined.

(** X15. The setup keeps the two globals in step (the client is available
    exactly when a model is set); when it failed every true question is
    answered by the local echo without a model call, and when it succeeded
    every true question is passed to the model. *)
Theorem configure_genai_then_ask (setup : result GenerativeModel) :
  (genai_available (configure_genai setup) = true <->
   exists m, model (configure_genai setup) = Some m) /\
  (forall e data,
     setup = Raise e ->
     value_truthy (question_of data) = true ->
     ask (configure_genai setup) (Ok data)
     = ({| answer := "(local) You asked: " +:+ format (question_of data);
           status := 200 |}, [])) /\
  (forall m data,
     setup = Ok m ->
     value_truthy (question_of data) = true ->
     snd (ask (configure_genai setup) (Ok data)) = [question_of data]).
Proof.
  split; [|split].
  - destruct setup as [m|e]; simpl.
    + split; [intros _; exists m; reflexivity | reflexivity].
    + split; [discriminate | intros [m Hm]; discriminate Hm].
  - intros e data -> Hq. unfold ask. rewrite Hq. reflexivity.
  - intros m data -> Hq. unfold ask. rewrite Hq. reflexivity.
Qed.

Lemma configure_genai_then_ask_witness :
  ask (configure_genai (Raise "No module named google.generativeai"))
      (Ok (JDict {[ "question" := VStr "What is new?" ]}))
  = ({| answer := "(local) You asked: What is new?"; status := 200 |}, []).
Proof.
  rewrite (proj1 (proj2 (configure_genai_then_ask
                           (Raise "No module named google.generativeai")))
             "No module named google.generativeai"
             (JDict {[ "question" := VStr "What is new?" ]}) eq_refl).
  - vm_compute. reflexivity.
  - vm_compute. reflexivity.
Defined.
